(** * Gist-memory agent: pagination, page store, recall and metrics

    A shallow embedding of [gist/gist_agent.py] (class [GistAgent]) and the
    properties of its pagination loop, its two-stage recall and its metrics
    collector.

    Modelling conventions.
    - Python [str] values are [string]s of 8-bit characters; the character
      classes of [str.split], [str.strip], [str.isnumeric] and of the regular
      expressions are the ASCII ones.
    - Python [int] indices and word counts are [nat]; token counts are [Z].
    - Python [float] times are exact rationals [Q]: rounding is not modelled.
    - The agent is a record threaded through a state-and-exception monad;
      a raised Python exception keeps the mutations made before it.
    - The inference endpoint is a function of the prompts sent so far and the
      current prompt; the agent records every prompt it sends in the ghost
      field [calls].
    - The file system of the page cache ([arxiv_parser.py]) is a map from
      the paths of the files to their contents, with [/] as the path
      separator; directories and failing writes are not modelled. *)

From Stdlib Require Import QArith Lqa Ascii String DecimalString DecimalNat.
From stdpp Require Import base numbers list strings sorting gmap.

Set Default Proof Using "Type".

(** ** Python string primitives *)

Module PyStr.

Definition nl : string := String (ascii_of_nat 10) EmptyString.

(** [str.isspace] on one ASCII character: TAB, LF, VT, FF, CR, the four
    separators FS, GS, RS, US and the blank. *)
Definition is_space (c : ascii) : bool :=
  let n := nat_of_ascii c in
  ((9 <=? n) && (n <=? 13)) || ((28 <=? n) && (n <=? 32)).

Definition is_digit (c : ascii) : bool :=
  let n := nat_of_ascii c in (48 <=? n) && (n <=? 57).

Definition is_lower (c : ascii) : bool :=
  let n := nat_of_ascii c in (97 <=? n) && (n <=? 122).

Definition digit_value (c : ascii) : nat := nat_of_ascii c - 48.

(** ['sep'.join(l)] *)
Definition join (sep : string) (l : list string) : string :=
  String.concat sep l.

(** [len(s.split())]: the number of maximal runs of non-space characters. *)
Fixpoint count_words (in_word : bool) (s : string) : nat :=
  match s with
  | EmptyString => 0
  | String c s' =>
      if is_space c then count_words false s'
      else (if in_word then 0 else 1) + count_words true s'
  end.

Definition word_count (s : string) : nat := count_words false s.

(** [str(n)] for a non-negative integer. *)
Definition str_of_nat (n : nat) : string :=
  NilEmpty.string_of_uint (Nat.to_uint n).

(** [int(s)] on a run of decimal digits, most significant first. *)
Definition int_of_digits (ds : list ascii) : nat :=
  foldl (fun acc d => 10 * acc + digit_value d) 0 ds.

(** The maximal prefix of characters satisfying [p], and the rest. *)
Fixpoint span (p : ascii -> bool) (s : list ascii) : list ascii * list ascii :=
  match s with
  | [] => ([], [])
  | c :: s' =>
      if p c then let '(run, rest) := span p s' in (c :: run, rest)
      else ([], s)
  end.

Fixpoint lstrip (s : list ascii) : list ascii :=
  match s with
  | c :: s' => if is_space c then lstrip s' else s
  | [] => []
  end.

(** [s.strip()] *)
Definition strip_chars (s : list ascii) : list ascii :=
  rev (lstrip (rev (lstrip s))).

Definition strip (s : string) : string :=
  string_of_list_ascii (strip_chars (list_ascii_of_string s)).

(** [s.split(sep)] for a one-character separator: always at least one
    piece, empty pieces are kept. *)
Fixpoint split_on (sep : ascii) (s : list ascii) : list (list ascii) :=
  match s with
  | [] => [[]]
  | c :: s' =>
      if Ascii.eqb c sep then [] :: split_on sep s'
      else match split_on sep s' with
           | piece :: pieces => (c :: piece) :: pieces
           | [] => [[c]]
           end
  end.

(** [s.isnumeric()]: non-empty and every character a digit. *)
Definition isnumeric (s : list ascii) : bool :=
  match s with
  | [] => false
  | _ => forallb is_digit s
  end.

(** ASCII [str.lower]. *)
Definition lower_char (c : ascii) : ascii :=
  let n := nat_of_ascii c in
  if (65 <=? n) && (n <=? 90) then ascii_of_nat (n + 32) else c.

(** Truthiness of an optional string: [None] and the empty string are falsy. *)
Definition truthy (r : option string) : bool :=
  match r with
  | Some (String _ _) => true
  | _ => false
  end.

End PyStr.

(** ** Exceptions *)

Inductive Exn : Type :=
| IndexError
| ZeroDivisionError
| ValueError
| RequestException.

Inductive Result (A : Type) : Type :=
| Ok (a : A)
| Raise (e : Exn).
Arguments Ok {A} a.
Arguments Raise {A} e.

(** ** Inference endpoint *)

Record Usage : Type := mkUsage {
  u_prompt_tokens : Z;
  u_completion_tokens : Z;
  u_total_tokens : Z
}.

(** The response object: [choices[0].message.content], the optional
    [time_info.completion_time] and the optional [usage] block. *)
Record Response : Type := mkResponse {
  content : option string;
  time_info : option Q;
  usage : option Usage
}.

(** [PROMPT_*_TEMPLATE.format(...)]: a prompt is its template and the
    arguments substituted into it. *)
Inductive Prompt : Type :=
| PROMPT_PAGINATION (preceding passage end_tag : string)
| PROMPT_SHORTEN (page : string)
| PROMPT_LOOKUP (shortened_article question : string)
| PROMPT_FREE_ANSWER (expanded_article question : string).

(** What [client.chat.completions.create] does: raise, or return a response
    after [delta_time] seconds of wall-clock time. *)
Inductive Reply : Type :=
| CallRaised
| Returned (response : Response) (delta_time : Q).

(** ** Metrics *)

Record Metrics : Type := mkMetrics {
  llm_calls : Z;
  completion_time : Q;
  prompt_tokens : Z;
  response_tokens : Z;
  total_tokens : Z;
  avg_tokens_per_second : Q
}.

Definition _get_initial_metrics : Metrics :=
  {| llm_calls := 0; completion_time := 0; prompt_tokens := 0;
     response_tokens := 0; total_tokens := 0; avg_tokens_per_second := 0 |}.

(** Python's [/]: raises [ZeroDivisionError] on a zero divisor. *)
Definition py_truediv (a : Z) (b : Q) : Result Q :=
  if Qeq_bool b 0 then Raise ZeroDivisionError else Ok (inject_Z a / b)%Q.

Definition Qpos_b (q : Q) : bool :=
  match Qcompare 0 q with Lt => true | _ => false end.

(** The counters after the three unconditional and the three usage-guarded
    additions of [_update_llm_metrics]. *)
Definition add_call (response : Response) (delta_time : Q) (m : Metrics) : Metrics :=
  let time_taken :=
    match time_info response with
    | Some t => t
    | None => delta_time
    end in
  let calls' := (llm_calls m + 1)%Z in
  let time' := (completion_time m + time_taken)%Q in
  match usage response with
  | Some u =>
      {| llm_calls := calls'; completion_time := time';
         prompt_tokens := (prompt_tokens m + u_prompt_tokens u)%Z;
         response_tokens := (response_tokens m + u_completion_tokens u)%Z;
         total_tokens := (total_tokens m + u_total_tokens u)%Z;
         avg_tokens_per_second := avg_tokens_per_second m |}
  | None =>
      {| llm_calls := calls'; completion_time := time';
         prompt_tokens := prompt_tokens m;
         response_tokens := response_tokens m;
         total_tokens := total_tokens m;
         avg_tokens_per_second := avg_tokens_per_second m |}
  end.

Definition set_avg (q : Q) (m : Metrics) : Metrics :=
  {| llm_calls := llm_calls m; completion_time := completion_time m;
     prompt_tokens := prompt_tokens m; response_tokens := response_tokens m;
     total_tokens := total_tokens m; avg_tokens_per_second := q |}.

(** [_update_llm_metrics]: the outcome ([Ok tt] or the exception raised) and
    the metrics it leaves behind. *)
Definition _update_llm_metrics (response : Response) (delta_time : Q)
    (m : Metrics) : Result unit * Metrics :=
  let m1 := add_call response delta_time m in
  if Qpos_b (completion_time m1) && (0 <? response_tokens m1)%Z then
    match py_truediv (response_tokens m1) (completion_time m1) with
    | Ok q => (Ok tt, set_avg q m1)
    | Raise e => (Raise e, m1)
    end
  else (Ok tt, m1).

(** ** Parsing model output *)

Module Parse.
Import PyStr.

Fixpoint starts_with (p s : list ascii) : bool :=
  match p, s with
  | [], _ => true
  | a :: p', b :: s' => Ascii.eqb a b && starts_with p' s'
  | _ :: _, [] => false
  end.

(** [re.search(r"<(\d+)>", text)]: at the leftmost [<] that is followed by
    a non-empty run of digits and a [>], the digits. The run is taken
    maximal: a shorter one would have to be followed by [>] where a digit
    stands. *)
Fixpoint search_label (s : list ascii) : option (list ascii) :=
  match s with
  | [] => None
  | c :: s' =>
      if Ascii.eqb c "<" then
        match span is_digit s' with
        | (d :: ds, r :: _) =>
            if Ascii.eqb r ">" then Some (d :: ds) else search_label s'
        | _ => search_label s'
        end
      else search_label s'
  end.

(** The character class [[\d,\s]]. *)
Definition in_list_class (c : ascii) : bool :=
  is_digit c || Ascii.eqb c "," || is_space c.

(** [re.search(r'\[([\d,\s]+)\]', text)]: group 1 of the leftmost match. *)
Fixpoint search_bracket_list (s : list ascii) : option (list ascii) :=
  match s with
  | [] => None
  | c :: s' =>
      if Ascii.eqb c "[" then
        match span in_list_class s' with
        | (x :: xs, r :: _) =>
            if Ascii.eqb r "]" then Some (x :: xs) else search_bracket_list s'
        | _ => search_bracket_list s'
        end
      else search_bracket_list s'
  end.

(** The lazy [.*?:] at the start of [s]: the length up to and including
    the first colon, provided no newline comes before it. *)
Fixpoint lazy_to_colon (s : list ascii) : option nat :=
  match s with
  | [] => None
  | c :: s' =>
      if Ascii.eqb c ":" then Some 1
      else if Ascii.eqb c (ascii_of_nat 10) then None
      else S <$> lazy_to_colon s'
  end.

Definition shortened_lit : list ascii :=
  list_ascii_of_string " shortened".

(** The greedy [[a-z ]+] with backtracking: give the class [k] characters,
    then [k-1], ..., then 1, until [ shortened.*?:] matches behind it.
    The result is the length of the whole match. *)
Fixpoint backtrack (k : nat) (s : list ascii) : option nat :=
  match k with
  | 0 => None
  | S k' =>
      let rest := drop k s in
      match (if starts_with shortened_lit rest
             then lazy_to_colon (drop (length shortened_lit) rest)
             else None) with
      | Some m => Some (k + length shortened_lit + m)
      | None => backtrack k' s
      end
  end.

(** [re.match(r"(here[a-z ]+ shortened.*?:)", s)]: the length of group 1. *)
Definition match_preamble (s : list ascii) : option nat :=
  let here := list_ascii_of_string "here" in
  if starts_with here s then
    let rest := drop (length here) s in
    let '(run, _) := span (fun c => is_lower c || Ascii.eqb c " ") rest in
    (fun n => length here + n) <$> backtrack (length run) rest
  else None.

End Parse.

(** ** Text source adapter *)

(** A fetched page, seen through [get_title_from_html] and
    [get_paragraphs_from_html]. *)
Record HtmlPage : Type := mkHtmlPage {
  get_title_from_html : option string;
  get_paragraphs_from_html : list string
}.

(** ** The agent *)

Record GistAgent : Type := mkGistAgent {
  title : option string;
  pages : list (list string);
  shortened_pages : list string;
  llm_metrics : Metrics;
  calls : list Prompt
}.

Definition set_title (t : option string) (a : GistAgent) : GistAgent :=
  {| title := t; pages := pages a; shortened_pages := shortened_pages a;
     llm_metrics := llm_metrics a; calls := calls a |}.

Definition pages_append (page : list string) (a : GistAgent) : GistAgent :=
  {| title := title a; pages := pages a ++ [page];
     shortened_pages := shortened_pages a;
     llm_metrics := llm_metrics a; calls := calls a |}.

Definition shortened_pages_append (summary : string) (a : GistAgent) : GistAgent :=
  {| title := title a; pages := pages a;
     shortened_pages := shortened_pages a ++ [summary];
     llm_metrics := llm_metrics a; calls := calls a |}.

Definition set_llm_metrics (m : Metrics) (a : GistAgent) : GistAgent :=
  {| title := title a; pages := pages a; shortened_pages := shortened_pages a;
     llm_metrics := m; calls := calls a |}.

Definition record_call (p : Prompt) (a : GistAgent) : GistAgent :=
  {| title := title a; pages := pages a; shortened_pages := shortened_pages a;
     llm_metrics := llm_metrics a; calls := calls a ++ [p] |}.

(** [GistAgent.__init__] after the client has been created. *)
Definition new_agent : GistAgent :=
  {| title := Some EmptyString; pages := []; shortened_pages := [];
     llm_metrics := _get_initial_metrics; calls := [] |}.

(** State-and-exception monad over the agent. *)
Definition M (A : Type) : Type := GistAgent -> Result A * GistAgent.

Definition ret {A} (a : A) : M A := fun st => (Ok a, st).
Definition raise {A} (e : Exn) : M A := fun st => (Raise e, st).
Definition bind {A B} (m : M A) (k : A -> M B) : M B :=
  fun st =>
    match m st with
    | (Ok a, st') => k a st'
    | (Raise e, st') => (Raise e, st')
    end.
Definition get_self : M GistAgent := fun st => (Ok st, st).
Definition modify (f : GistAgent -> GistAgent) : M unit :=
  fun st => (Ok tt, f st).

Declare Scope agent_scope.
Delimit Scope agent_scope with agent.
Notation "'let*' x ':=' m 'in' k" := (bind m (fun x => k))
  (at level 10, x pattern, m at level 100, k at level 200) : agent_scope.

(** [l[i]] for a non-negative [i]. *)
Definition getitem {A} (l : list A) (i : nat) : M A :=
  match l !! i with
  | Some x => ret x
  | None => raise IndexError
  end.

(** [l[-1]] *)
Definition getlast {A} (l : list A) : M A :=
  match last l with
  | Some x => ret x
  | None => raise IndexError
  end.

(** [l[i] = x] for a non-negative [i]. *)
Definition setitem {A} (l : list A) (i : nat) (x : A) : M (list A) :=
  if i <? length l then ret (<[i:=x]> l) else raise IndexError.

(** [l[a:b]] for non-negative [a] and [b]. *)
Definition slice {A} (l : list A) (a b : nat) : list A :=
  take (b - a) (drop a l).

Local Open Scope agent_scope.

Section Agent.

Import PyStr.

(** The endpoint behind [client.chat.completions.create]: its reply to a
    prompt, given the prompts sent before. *)
Variable endpoint : list Prompt -> Prompt -> Reply.

(** [_run_llm] with [stream=False], the only way the agent calls it. Every
    exception of the [try] block is caught and turned into [None]. *)
Definition _run_llm (prompt : Prompt) : M (option string) :=
  fun st =>
    let reply := endpoint (calls st) prompt in
    let st := record_call prompt st in
    match reply with
    | CallRaised => (Ok None, st)
    | Returned response delta_time =>
        let '(r, m) := _update_llm_metrics response delta_time (llm_metrics st) in
        match r with
        | Ok _ => (Ok (content response), set_llm_metrics m st)
        | Raise _ => (Ok None, set_llm_metrics m st)
        end
    end.

Definition word_limit : nat := 600.
Definition start_threshold : nat := 280.
Definition min_page_words : nat := 350.

(** The label [f"<{j}>"]. *)
Definition label (j : nat) : string := "<" +:+ str_of_nat j +:+ ">".

(** The [while] loop of [_get_next_page_break], run over the paragraphs
    from index [j] on: it returns the final [j], [wcount] and [passage]. *)
Fixpoint accumulate (rest : list string) (j wcount : nat)
    (passage : list string) : nat * nat * list string :=
  match rest with
  | [] => (j, wcount, passage)
  | p :: rest' =>
      if wcount <? word_limit then
        let wcount' := wcount + word_count p in
        let passage' :=
          if start_threshold <=? wcount' then passage ++ [label j]
          else passage in
        accumulate rest' (S j) wcount' (passage' ++ [p])
      else (j, wcount, passage)
  end.

(** [_parse_pause_point] *)
Definition _parse_pause_point (text : string) : option nat :=
  int_of_digits <$> Parse.search_label (list_ascii_of_string text).

(** Lines 225-231 of [_get_next_page_break]: the break chosen from the
    response, between the start [i] and the window end [j]. *)
Definition choose_break (i j : nat) (response : option string) : nat :=
  if truthy response then
    match response ≫= _parse_pause_point with
    | Some pause_point =>
        if negb (pause_point =? 0) && ((i <? pause_point) && (pause_point <=? j))
        then pause_point
        else j
    | None => j
    end
  else j.

(** [_get_next_page_break] *)
Definition _get_next_page_break (paragraphs : list string)
    (start_paragraph : nat) : M nat :=
  let i := start_paragraph in
  let* self := get_self in
  let* preceding :=
    (if i =? 0 then ret EmptyString
     else let* last_page := getlast (pages self) in
          ret ("..." +:+ nl +:+ join nl last_page)) in
  let* first := getitem paragraphs i in
  let '(j, wcount, passage) :=
    accumulate (drop (S i) paragraphs) (S i) (word_count first) [first] in
  let passage := passage ++ [label j] in
  let* end_tag :=
    (if j =? length paragraphs then ret EmptyString
     else let* next := getitem paragraphs j in
          ret (next +:+ nl +:+ "...")) in
  if wcount <? min_page_words then ret (length paragraphs)
  else
    let* response := _run_llm (PROMPT_PAGINATION preceding (join nl passage) end_tag) in
    ret (choose_break i j response).

(** [_post_process_summary] *)
Definition _post_process_summary (text : string) : string :=
  let chars := list_ascii_of_string text in
  match Parse.match_preamble (map lower_char chars) with
  | Some n => string_of_list_ascii (strip_chars (drop n chars))
  | None => text
  end.

(** [_create_summary] *)
Definition _create_summary (page : list string) : M string :=
  let* response := _run_llm (PROMPT_SHORTEN (join nl page)) in
  match response with
  | Some text =>
      if truthy response then ret (_post_process_summary (strip text))
      else ret "Failed to generate summary."
  | None => ret "Failed to generate summary."
  end.

(** One iteration of the [while] loop of [process_document]: it returns the
    new pause point. *)
Definition loop_body (paragraphs : list string) (pause_point : nat) : M nat :=
  let old_pause_point := pause_point in
  let* new_pause_point := _get_next_page_break paragraphs old_pause_point in
  let current_page := slice paragraphs old_pause_point new_pause_point in
  let* _ := modify (pages_append current_page) in
  let* summary := _create_summary current_page in
  let* _ := modify (shortened_pages_append summary) in
  ret new_pause_point.

(** The [while pause_point < total_paragraphs] loop of [process_document].
    [None] means the iteration budget [fuel] ran out before the loop
    condition became false. *)
Fixpoint process_loop (fuel : nat) (paragraphs : list string)
    (pause_point : nat) (st : GistAgent) : option (Result unit * GistAgent) :=
  if pause_point <? length paragraphs then
    match fuel with
    | 0 => None
    | S fuel' =>
        match loop_body paragraphs pause_point st with
        | (Ok new_pause_point, st') =>
            process_loop fuel' paragraphs new_pause_point st'
        | (Raise e, st') => Some (Raise e, st')
        end
    end
  else Some (Ok tt, st).

(** The page a URL leads to: [get_html_page(get_ar5iv_link(url))], which
    raises for a malformed link or a failed request. *)
Variable fetch : string -> Result HtmlPage.

(** [process_document] *)
Definition process_document (fuel : nat) (url : string) (st : GistAgent)
    : option (Result unit * GistAgent) :=
  match fetch url with
  | Raise e => Some (Raise e, st)
  | Ok html_page =>
      let st := set_title (get_title_from_html html_page) st in
      if negb (truthy (title st)) then Some (Ok tt, st)
      else
        let paragraphs := get_paragraphs_from_html html_page in
        process_loop fuel paragraphs 0 st
  end.

(** What [answer] reports on the console before it returns:
    - [NotProcessedError]: the line "Error: No document has been processed.
      Please call `process_document` first." (lines 310-312);
    - [LookupFailed]: "Failed to get lookup response from LLM." (lines
      326-328);
    - [FinalAnswer]: the diagnostics of the validation loop, the pages
      chosen for re-reading and the stripped final answer;
    - [AnswerFailed]: the same diagnostics and pages, then "Failed to
      generate a final answer.". *)
Inductive Outcome : Type :=
| NotProcessedError
| LookupFailed
| FinalAnswer (diagnostics : list string) (chosen_pages : option (list nat))
    (text : string)
| AnswerFailed (diagnostics : list string) (chosen_pages : option (list nat)).

Definition invalid_page_message (page_id : nat) : string :=
  "  - (Model requested invalid page index: " +:+ str_of_nat page_id +:+ ")".

(** The [for p in page_ids_str] loop of [answer]: the page ids appended
    and the diagnostics printed, both in order. *)
Fixpoint collect_page_ids (n_pages : nat) (page_ids_str : list (list ascii))
    : list nat * list string :=
  match page_ids_str with
  | [] => ([], [])
  | p :: rest =>
      let '(page_ids, printed) := collect_page_ids n_pages rest in
      let token := strip_chars p in
      if isnumeric token then
        let page_id := int_of_digits token in
        if page_id <? n_pages then (page_id :: page_ids, printed)
        else (page_ids, invalid_page_message page_id :: printed)
      else (page_ids, printed)
  end.

(** Lines 334-347 of [answer]. *)
Definition parse_page_ids (intermediate_response : string) (n_pages : nat)
    : list nat * list string :=
  match Parse.search_bracket_list (list_ascii_of_string intermediate_response) with
  | Some group => collect_page_ids n_pages (split_on "," group)
  | None => ([], [])
  end.

(** [sorted(list(set(page_ids))) if page_ids else 'None'] *)
Definition chosen_pages_of (page_ids : list nat) : option (list nat) :=
  match page_ids with
  | [] => None
  | _ => Some (merge_sort Nat.le (remove_dups page_ids))
  end.

(** The [for page_id in page_ids] loop of the expansion stage. *)
Fixpoint expand (all_pages : list (list string)) (page_ids : list nat)
    (expanded_shortened_pages : list string) : M (list string) :=
  match page_ids with
  | [] => ret expanded_shortened_pages
  | page_id :: rest =>
      let* page := getitem all_pages page_id in
      let* expanded := setitem expanded_shortened_pages page_id (join nl page) in
      expand all_pages rest expanded
  end.

Definition page_header (i : nat) (gist : string) : string :=
  nl +:+ "Page " +:+ str_of_nat i +:+ ":" +:+ nl +:+ gist.

(** [answer] *)
Definition answer (question : string) : M Outcome :=
  let* self := get_self in
  match pages self with
  | [] => ret NotProcessedError
  | _ :: _ =>
      let shortened_pages_pidx := imap page_header (shortened_pages self) in
      let shortened_article := join nl shortened_pages_pidx in
      let* intermediate_response :=
        _run_llm (PROMPT_LOOKUP shortened_article question) in
      match intermediate_response with
      | Some (String c r) =>
          let '(page_ids, printed) :=
            parse_page_ids (String c r) (length (pages self)) in
          let chosen_pages := chosen_pages_of page_ids in
          let* expanded_shortened_pages :=
            expand (pages self) page_ids (shortened_pages self) in
          let expanded_article := join nl expanded_shortened_pages in
          let* final_answer :=
            _run_llm (PROMPT_FREE_ANSWER expanded_article question) in
          if truthy final_answer
          then ret (FinalAnswer printed chosen_pages
                      (strip (default EmptyString final_answer)))
          else ret (AnswerFailed printed chosen_pages)
      | _ => ret LookupFailed
      end
  end.

End Agent.

(** ** The streaming variant of [_run_llm] *)

(** One chunk of a streamed reply: [choices[0].delta.content], whether
    [choices[0].finish_reason] is set, and the optional [time_info] and
    [usage] blocks [_update_llm_metrics] looks for on the final chunk. *)
Record Chunk : Type := mkChunk {
  delta_content : option string;
  finish_reason : bool;
  chunk_time_info : option Q;
  chunk_usage : option Usage
}.

(** What [client.chat.completions.create(stream=True)] does: raise, or hand
    out chunks; the iteration over them either ends or is [interrupted] by
    an exception after the chunks listed; [delta_time] is the wall-clock
    time at the end of the iteration. *)
Inductive StreamReply : Type :=
| StreamCallRaised
| Streamed (chunks : list Chunk) (interrupted : bool) (delta_time : Q).

(** The final chunk seen as the response object [_update_llm_metrics]
    reads. *)
Definition response_of_chunk (chunk : Chunk) : Response :=
  {| content := delta_content chunk;
     time_info := chunk_time_info chunk;
     usage := chunk_usage chunk |}.

(** The [for chunk in response] loop: the text and the final chunk so far. *)
Fixpoint consume_chunks (chunks : list Chunk) (full_response : string)
    (final_chunk : option Chunk) : string * option Chunk :=
  match chunks with
  | [] => (full_response, final_chunk)
  | chunk :: rest =>
      let full_response :=
        match delta_content chunk with
        | Some (String c r) => full_response +:+ String c r
        | _ => full_response
        end in
      let final_chunk := if finish_reason chunk then Some chunk else final_chunk in
      consume_chunks rest full_response final_chunk
  end.

(** [_run_llm] with [stream=True]. *)
Definition _run_llm_stream (stream_endpoint : list Prompt -> Prompt -> StreamReply)
    (prompt : Prompt) : M (option string) :=
  fun st =>
    let reply := stream_endpoint (calls st) prompt in
    let st := record_call prompt st in
    match reply with
    | StreamCallRaised => (Ok None, st)
    | Streamed chunks true _ => (Ok None, st)
    | Streamed chunks false delta_time =>
        let '(full_response, final_chunk) := consume_chunks chunks EmptyString None in
        match final_chunk with
        | Some chunk =>
            let '(r, m) :=
              _update_llm_metrics (response_of_chunk chunk) delta_time
                (llm_metrics st) in
            match r with
            | Ok _ => (Ok (Some full_response), set_llm_metrics m st)
            | Raise _ => (Ok None, set_llm_metrics m st)
            end
        | None => (Ok (Some full_response), st)
        end
    end.

(** ** The ar5iv adapter ([arxiv_parser.py]) *)

Module ArxivParser.

Definition ar5iv_prefix : string := "https://ar5iv.labs.arxiv.org/html/".

(** The class [\w] on ASCII: letters, digits and the underscore. *)
Definition is_word (c : ascii) : bool :=
  let n := nat_of_ascii c in
  ((48 <=? n) && (n <=? 57)) || ((65 <=? n) && (n <=? 90)) ||
  ((97 <=? n) && (n <=? 122)) || (n =? 95).

(** The class [[\w+.-]]. *)
Definition in_id_class (c : ascii) : bool :=
  is_word c || Ascii.eqb c "+" || Ascii.eqb c "." || Ascii.eqb c "-".

(** [arxiv\.org\/(?:pdf|abs)\/([\w+.-]+)] matched at the start of [s]:
    group 1. *)
Definition match_paper_id (s : list ascii) : option (list ascii) :=
  let pdf := list_ascii_of_string "arxiv.org/pdf/" in
  let abs := list_ascii_of_string "arxiv.org/abs/" in
  if Parse.starts_with pdf s || Parse.starts_with abs s then
    match PyStr.span in_id_class (drop (length pdf) s) with
    | (c :: run, _) => Some (c :: run)
    | ([], _) => None
    end
  else None.

(** [re.search] of that pattern: the leftmost position where it matches. *)
Fixpoint search_paper_id (s : list ascii) : option (list ascii) :=
  match s with
  | [] => None
  | c :: s' =>
      match match_paper_id s with
      | Some paper_id => Some paper_id
      | None => search_paper_id s'
      end
  end.

(** [s.endswith(suffix)] *)
Definition endswith (s suffix : list ascii) : bool :=
  Parse.starts_with (rev suffix) (rev s).

(** [paper_id[:-4]] when [paper_id] ends with [.pdf]. *)
Definition drop_pdf (paper_id : list ascii) : list ascii :=
  if endswith paper_id (list_ascii_of_string ".pdf")
  then take (length paper_id - 4) paper_id
  else paper_id.

(** [get_ar5iv_link] *)
Definition get_ar5iv_link (url : string) : Result string :=
  let chars := list_ascii_of_string url in
  if Parse.starts_with (list_ascii_of_string ar5iv_prefix) chars then Ok url
  else
    match search_paper_id chars with
    | None => Raise ValueError
    | Some paper_id =>
        Ok (ar5iv_prefix +:+ string_of_list_ascii (drop_pdf paper_id))
    end.

(** [c.isalnum()] on ASCII. *)
Definition is_alnum (c : ascii) : bool :=
  let n := nat_of_ascii c in
  ((48 <=? n) && (n <=? 57)) || ((65 <=? n) && (n <=? 90)) ||
  ((97 <=? n) && (n <=? 122)).

(** The cache key of [get_html_page]. *)
Definition cache_key (url : string) : string :=
  string_of_list_ascii (filter (fun c => is_alnum c = true) (list_ascii_of_string url))
  +:+ ".html".

(** [os.path.join(cache_dir, cache_key)] *)
Definition cache_path (url : string) : string :=
  "html_cache/" +:+ cache_key url.

(** [get_html_page]. The file system is the map from the paths of the
    existing files to their contents; [http_get url] is what
    [requests.get(url)] followed by [raise_for_status()] gives: the text of
    the response or a [RequestException]. *)
Definition get_html_page (http_get : string -> Result string) (url : string)
    (files : gmap string string) : Result string * gmap string string :=
  let file_path := cache_path url in
  match files !! file_path with
  | Some html_content => (Ok html_content, files)
  | None =>
      match http_get url with
      | Ok html_content => (Ok html_content, <[file_path := html_content]> files)
      | Raise e => (Raise e, files)
      end
  end.


End ArxivParser.

(** ** The title of a page *)

Module PyText.

Definition cons_word (w : list ascii) (ws : list (list ascii)) : list (list ascii) :=
  match w with
  | [] => ws
  | _ :: _ => w :: ws
  end.

(** The run of non-space characters at the start of [s], empty when [s]
    starts with a space, and the words behind it. *)
Fixpoint words_of (s : list ascii) : list ascii * list (list ascii) :=
  match s with
  | [] => ([], [])
  | c :: s' =>
      let '(w, ws) := words_of s' in
      if PyStr.is_space c then ([], cons_word w ws) else (c :: w, ws)
  end.

(** [s.split()]: the maximal runs of non-space characters. *)
Definition split_chars (s : list ascii) : list (list ascii) :=
  let '(w, ws) := words_of s in cons_word w ws.

Definition split (s : string) : list string :=
  string_of_list_ascii <$> split_chars (list_ascii_of_string s).

End PyText.

(** [get_title_from_html], line 86: the title made of the text of the title
    element, [" ".join(text.split())]. *)
Definition title_of_text (text : string) : string :=
  PyStr.join " " (PyText.split text).

(** ** Notions used to state the properties *)

(** The text [_run_llm] hands back for a reply of the endpoint. *)
Definition reply_text (r : Reply) : option string :=
  match r with
  | CallRaised => None
  | Returned response _ => content response
  end.

(** The window [_get_next_page_break] accumulates from paragraph [i]: the
    window end [j], the accumulated word count and the passage before the
    closing label is appended. *)
Definition window (paragraphs : list string) (i : nat)
    : option (nat * nat * list string) :=
  first ← paragraphs !! i;
  Some (accumulate (drop (S i) paragraphs) (S i) (PyStr.word_count first) [first]).

Definition total_words (l : list string) : nat :=
  sum_list_with PyStr.word_count l.

(** [self.pages[-1]] is only read for a start index other than 0. *)
Definition previous_page_available (st : GistAgent) (start : nat) : Prop :=
  start = 0 ∨ pages st ≠ [].

(** Page boundaries [(start, end)] that tile the interval from [s] to [e]:
    each page is non-empty and starts where the previous one ends. *)
Fixpoint tiles (s : nat) (bounds : list (nat * nat)) (e : nat) : Prop :=
  match bounds with
  | [] => s = e
  | (a, b) :: rest => a = s ∧ a < b ∧ tiles b rest e
  end.

Definition page_of_bounds (paragraphs : list string) (ab : nat * nat)
    : list string :=
  slice paragraphs ab.1 ab.2.

(** The page store keeps one summary per page. *)
Definition aligned (st : GistAgent) : Prop :=
  length (pages st) = length (shortened_pages st).

(** The context of the expansion stage: the summary of every page, but the
    full text of the pages listed in [page_ids]. *)
Definition expanded_context (st : GistAgent) (page_ids : list nat)
    : list string :=
  imap (fun k gist =>
          if bool_decide (k ∈ page_ids)
          then PyStr.join PyStr.nl (default [] (pages st !! k))
          else gist)
       (shortened_pages st).

(** [st'] holds the same title, pages and summaries as [st]. *)
Definition same_store (st st' : GistAgent) : Prop :=
  title st' = title st ∧ pages st' = pages st ∧
  shortened_pages st' = shortened_pages st.

(** An endpoint whose every call raises. *)
Definition failing_endpoint : list Prompt -> Prompt -> Reply :=
  fun _ _ => CallRaised.

(** The time [_update_llm_metrics] adds for a response: the reported
    completion time when there is one, else the wall-clock time. *)
Definition time_taken (rd : Response * Q) : Q :=
  match time_info rd.1 with
  | Some t => t
  | None => rd.2
  end.

(** The metrics after [_update_llm_metrics] has recorded the responses of
    [rs], each with its wall-clock time, in order. *)
Definition record_all (rs : list (Response * Q)) (m : Metrics) : Metrics :=
  foldl (fun m rd => (_update_llm_metrics rd.1 rd.2 m).2) m rs.

(** The sum of one usage count over the responses that carry a usage
    block. *)
Definition usage_sum (count : Usage → Z) (rs : list (Response * Q)) : Z :=
  foldr (fun rd acc =>
           (match usage rd.1 with Some u => count u | None => 0 end + acc)%Z)
        0%Z rs.

Definition time_sum (rs : list (Response * Q)) : Q :=
  foldr (fun rd acc => (time_taken rd + acc)%Q) 0%Q rs.

(** The average is either still 0 or the quotient of the current counters. *)
Definition average_current (m : Metrics) : Prop :=
  (0 <= completion_time m)%Q ∧ (0 ≤ response_tokens m)%Z ∧
  if Qpos_b (completion_time m) && (0 <? response_tokens m)%Z
  then avg_tokens_per_second m
       = (inject_Z (response_tokens m) / completion_time m)%Q
  else avg_tokens_per_second m = 0%Q.

(** The text of a stream: the contents of its chunks, end to end. *)
Definition stream_text (chunks : list Chunk) : string :=
  foldr (fun chunk acc => default EmptyString (delta_content chunk) +:+ acc)
        EmptyString chunks.

(** The last chunk of a stream that carries a finish reason. *)
Definition final_chunk_of (chunks : list Chunk) : option Chunk :=
  last (filter (fun chunk => finish_reason chunk = true) chunks).

(** The summary [_create_summary] makes of the text the endpoint returned:
    the failure sentence when there is none. *)
Definition summary_of_reply (text : option string) : string :=
  match text with
  | Some (String c r) => _post_process_summary (PyStr.strip (String c r))
  | _ => "Failed to generate summary."
  end.


(** Words as [str.split] gives them: non-empty and free of white space. *)
Definition space_free (w : list ascii) : Prop :=
  Forall (fun c => PyStr.is_space c = false) w.

Definition proper_words (ws : list (list ascii)) : Prop :=
  Forall (fun w => w ≠ [] ∧ space_free w) ws.

(** ** Sample inputs *)



(** A paragraph of [n] one-letter words. *)
Definition words (n : nat) : string := PyStr.join " " (replicate n "w").

Definition sample_document : list string :=
  [words 200; words 200; words 300; words 50].

(** An endpoint that proposes label 2 for every passage, returns a gist with
    a conversational preamble, asks to re-read pages 2, 2, 5 and 99, and
    answers every question the same way. *)
Definition sample_endpoint : list Prompt → Prompt → Reply :=
  fun _ prompt =>
    match prompt with
    | PROMPT_PAGINATION _ _ _ =>
        Returned (mkResponse (Some "Break point: <2> Because the topic changes.")
                    (Some (1 # 2)%Q) (Some (mkUsage 700 8 708))) 0
    | PROMPT_SHORTEN _ =>
        Returned (mkResponse (Some "Here is a shortened version: gist")
                    None None) (1 # 4)
    | PROMPT_LOOKUP _ _ =>
        Returned (mkResponse (Some "I want to look up Page [2, 2, 5, 99] to check.")
                    None (Some (mkUsage 90 12 102))) (1 # 4)
    | PROMPT_FREE_ANSWER _ _ =>
        Returned (mkResponse (Some " The answer. ") None None) (1 # 4)
    end.

(** A processed agent with three one-paragraph pages. *)
Definition three_page_agent : GistAgent :=
  {| title := Some "T";
     pages := [["P0 full"]; ["P1 full"]; ["P2 full"]];
     shortened_pages := ["S0"; "S1"; "S2"];
     llm_metrics := _get_initial_metrics;
     calls := [] |}.

(** A processed agent with ten two-paragraph pages. *)
Definition ten_page_agent : GistAgent :=
  {| title := Some "T";
     pages := (fun k => ["P" +:+ PyStr.str_of_nat k; "full"]) <$> seq 0 10;
     shortened_pages := (fun k => "S" +:+ PyStr.str_of_nat k) <$> seq 0 10;
     llm_metrics := _get_initial_metrics;
     calls := [] |}.

(** A fetched page without a title. *)
Definition untitled_fetch : string → Result HtmlPage :=
  fun _ => Ok (mkHtmlPage None sample_document).

(** * Properties *)

(** ** Metrics collector *)

Lemma Qpos_b_spec (q : Q) : Qpos_b q = true ↔ (0 < q)%Q.
Proof.
  unfold Qpos_b. rewrite Qlt_alt.
  destruct (0 ?= q)%Q; split; congruence.
Qed.

Lemma py_truediv_pos (a : Z) (b : Q) :
  (0 < b)%Q → py_truediv a b = Ok (inject_Z a / b)%Q.
Proof.
  intros Hb. unfold py_truediv.
  destruct (Qeq_bool b 0) eqn:E; [|done].
  apply Qeq_bool_iff in E. rewrite E in Hb.
  by apply Qlt_irrefl in Hb.
Qed.

(** The guard of [_update_llm_metrics] keeps its division from raising. *)
Lemma _update_llm_metrics_ok (response : Response) (delta_time : Q) (m : Metrics) :
  (_update_llm_metrics response delta_time m).1 = Ok tt.
Proof.
  unfold _update_llm_metrics.
  destruct (Qpos_b _) eqn:Hpos; simpl; [|done].
  destruct (0 <? _)%Z; simpl; [|done].
  apply Qpos_b_spec in Hpos. by rewrite py_truediv_pos.
Qed.

Lemma _update_llm_metrics_tokens (response : Response) (delta_time : Q) (m : Metrics) :
  let m' := (_update_llm_metrics response delta_time m).2 in
  prompt_tokens m' = prompt_tokens (add_call response delta_time m) ∧
  response_tokens m' = response_tokens (add_call response delta_time m) ∧
  total_tokens m' = total_tokens (add_call response delta_time m) ∧
  completion_time m' = completion_time (add_call response delta_time m).
Proof.
  unfold _update_llm_metrics.
  destruct (_ && _); [|done].
  by destruct (py_truediv _ _).
Qed.

Lemma _update_llm_metrics_avg (response : Response) (delta_time : Q) (m : Metrics) :
  let m' := (_update_llm_metrics response delta_time m).2 in
  (0 < completion_time m')%Q → (0 < response_tokens m')%Z →
  py_truediv (response_tokens m') (completion_time m')
  = Ok (avg_tokens_per_second m').
Proof.
  intros m'.
  destruct (_update_llm_metrics_tokens response delta_time m) as (_ & Hr & _ & Ht).
  fold m' in Hr, Ht. rewrite Hr, Ht. intros Hpos Htok.
  unfold m', _update_llm_metrics.
  rewrite (proj2 (Qpos_b_spec _) Hpos), (proj2 (Z.ltb_lt _ _) Htok). simpl.
  by rewrite py_truediv_pos.
Qed.

(** C8 (as the code has it). Starting from the zero metrics, recording two
    responses whose usage blocks report (10, 5) and (20, 15) prompt and
    completion tokens yields [prompt_tokens = 30] and [response_tokens = 20];
    when the cumulative completion time is positive,
    [avg_tokens_per_second] is 20 divided by it. Recording a response without
    a usage block leaves the three token counters unchanged, and recording
    never raises. *)
Theorem metrics_two_calls (r1 r2 : Response) (d1 d2 : Q) (tot1 tot2 : Z) :
  usage r1 = Some (mkUsage 10 5 tot1) →
  usage r2 = Some (mkUsage 20 15 tot2) →
  let m1 := (_update_llm_metrics r1 d1 _get_initial_metrics).2 in
  let m2 := (_update_llm_metrics r2 d2 m1).2 in
  prompt_tokens m2 = 30%Z ∧
  response_tokens m2 = 20%Z ∧
  ((0 < completion_time m2)%Q →
   py_truediv 20 (completion_time m2) = Ok (avg_tokens_per_second m2)) ∧
  (∀ r d m, usage r = None →
     let m' := (_update_llm_metrics r d m).2 in
     prompt_tokens m' = prompt_tokens m ∧
     response_tokens m' = response_tokens m ∧
     total_tokens m' = total_tokens m) ∧
  (∀ r d m, (_update_llm_metrics r d m).1 = Ok tt).
Proof.
  intros Hu1 Hu2 m1 m2.
  assert (Hp : prompt_tokens m2 = 30%Z ∧ response_tokens m2 = 20%Z).
  { destruct (_update_llm_metrics_tokens r2 d2 m1) as (Hp & Hr & _).
    destruct (_update_llm_metrics_tokens r1 d1 _get_initial_metrics) as (Hp1 & Hr1 & _).
    fold m1 in Hp1, Hr1. fold m2 in Hp, Hr.
    rewrite Hp, Hr. unfold add_call in *. rewrite Hu2. rewrite Hu1 in Hp1, Hr1.
    simpl in *. rewrite Hp1, Hr1. done. }
  destruct Hp as [Hp Hr]. repeat split; try done.
  - intros Hpos. rewrite <- Hr.
    apply _update_llm_metrics_avg; [done|]. fold m2. by rewrite Hr.
  - destruct (_update_llm_metrics_tokens r d m) as (-> & _ & _).
    unfold add_call. by rewrite H.
  - destruct (_update_llm_metrics_tokens r d m) as (_ & -> & _).
    unfold add_call. by rewrite H.
  - destruct (_update_llm_metrics_tokens r d m) as (_ & _ & -> & _).
    unfold add_call. by rewrite H.
  - intros. apply _update_llm_metrics_ok.
Qed.

(** Two calls of half a second each: the average is 20 tokens per second. *)
Lemma metrics_two_calls_witness :
  let r1 := mkResponse (Some "a") (Some (1 # 2)%Q) (Some (mkUsage 10 5 15)) in
  let r2 := mkResponse (Some "b") None (Some (mkUsage 20 15 35)) in
  let m1 := (_update_llm_metrics r1 0 _get_initial_metrics).2 in
  let m2 := (_update_llm_metrics r2 (1 # 2) m1).2 in
  prompt_tokens m2 = 30%Z ∧ response_tokens m2 = 20%Z ∧
  py_truediv 20 (completion_time m2) = Ok (avg_tokens_per_second m2).
Proof.
  intros r1 r2 m1 m2.
  destruct (metrics_two_calls r1 r2 0 (1 # 2) 15 35 eq_refl eq_refl)
    as (Hp & Hr & Havg & _).
  split; [exact Hp|]. split; [exact Hr|].
  apply Havg. reflexivity.
Defined.

(** C8 as stated fails: after two recorded calls that took no measurable
    time the cumulative completion time is 0, the guard of
    [_update_llm_metrics] skips the division, and the average keeps its
    initial value 0 although 20 divided by 0 is no number. *)
Lemma metrics_two_calls_zero_time :
  let r1 := mkResponse (Some "a") None (Some (mkUsage 10 5 15)) in
  let r2 := mkResponse (Some "b") None (Some (mkUsage 20 15 35)) in
  let m1 := (_update_llm_metrics r1 0 _get_initial_metrics).2 in
  let m2 := (_update_llm_metrics r2 0 m1).2 in
  response_tokens m2 = 20%Z ∧
  avg_tokens_per_second m2 = 0%Q ∧
  py_truediv 20 (completion_time m2) = Raise ZeroDivisionError ∧
  py_truediv 20 (completion_time m2) ≠ Ok (avg_tokens_per_second m2).
Proof. vm_compute. repeat split; discriminate. Qed.

(** ** Paginator *)

Section Paginator.

Variable endpoint : list Prompt -> Prompt -> Reply.

(** [_run_llm] never raises: it returns the text of the reply and records
    the prompt; pages, summaries and title are untouched. *)
Lemma _run_llm_spec (prompt : Prompt) (st : GistAgent) :
  ∃ st', _run_llm endpoint prompt st
         = (Ok (reply_text (endpoint (calls st) prompt)), st') ∧
         calls st' = calls st ++ [prompt] ∧
         pages st' = pages st ∧
         shortened_pages st' = shortened_pages st ∧
         title st' = title st.
Proof.
  unfold _run_llm. destruct (endpoint (calls st) prompt) as [|response delta]; simpl.
  - by eexists.
  - pose proof (_update_llm_metrics_ok response delta (llm_metrics st)) as Hok.
    destruct (_update_llm_metrics response delta (llm_metrics st)) as [r m].
    simpl in Hok. subst r. by eexists.
Qed.

Lemma total_words_app (l1 l2 : list string) :
  total_words (l1 ++ l2) = total_words l1 + total_words l2.
Proof. apply sum_list_with_app. Qed.

(** What the accumulation loop computes: it consumes a prefix of [rest],
    adds up the words of that prefix, and stops short of the end of [rest]
    only once the word limit is reached. *)
Lemma accumulate_spec (rest : list string) :
  ∀ j wcount passage j' wcount' passage',
    accumulate rest j wcount passage = (j', wcount', passage') →
    j ≤ j' ≤ j + length rest ∧
    wcount' = wcount + total_words (take (j' - j) rest) ∧
    (wcount' < word_limit → j' = j + length rest).
Proof.
  induction rest as [|p rest IH]; intros j wcount passage j' wcount' passage' Hacc;
    simpl in Hacc.
  - injection Hacc as <- <- <-. rewrite Nat.sub_diag. simpl.
    unfold total_words. simpl. lia.
  - destruct (wcount <? word_limit) eqn:Hlim.
    + apply IH in Hacc as (Hj & Hw & Hend). simpl.
      replace (j' - j) with (S (j' - S j)) by lia. simpl.
      unfold total_words in *. simpl. lia.
    + injection Hacc as <- <- <-. apply Nat.ltb_ge in Hlim.
      rewrite Nat.sub_diag. unfold total_words. simpl. lia.
Qed.

(** The window of a valid start index ends after it and inside the
    document, and its word count is that of the paragraphs it spans. *)
Lemma window_spec (paragraphs : list string) (i j wcount : nat)
    (passage : list string) :
  window paragraphs i = Some (j, wcount, passage) →
  i < j ≤ length paragraphs ∧
  wcount = total_words (slice paragraphs i j) ∧
  (wcount < word_limit → j = length paragraphs).
Proof.
  unfold window. destruct (paragraphs !! i) as [first|] eqn:Hfirst; [|done].
  simpl. intros [= Hacc].
  apply accumulate_spec in Hacc as (Hj & Hw & Hend).
  pose proof (lookup_lt_Some _ _ _ Hfirst) as Hlt.
  rewrite length_drop in Hj, Hend.
  split; [lia|]. split; [|lia].
  rewrite Hw. unfold slice.
  rewrite (drop_S _ _ _ Hfirst).
  replace (j - i) with (S (j - S i)) by lia. simpl.
  unfold total_words. simpl. done.
Qed.

Lemma window_is_Some (paragraphs : list string) (i : nat) :
  i < length paragraphs → is_Some (window paragraphs i).
Proof.
  intros Hlt. unfold window.
  destruct (lookup_lt_is_Some_2 paragraphs i Hlt) as [first ->]. simpl. by eexists.
Qed.

(** The break chosen from a response lies in the window. *)
Lemma choose_break_bounds (i j : nat) (response : option string) :
  i < j → i < choose_break i j response ≤ j.
Proof.
  intros Hij. unfold choose_break.
  destruct (PyStr.truthy response); [|lia].
  destruct (response ≫= _parse_pause_point) as [pp|]; [|lia].
  destruct (negb (pp =? 0) && ((i <? pp) && (pp <=? j))) eqn:Hacc; [|lia].
  apply andb_prop in Hacc as [_ Hacc]. apply andb_prop in Hacc as [H1 H2].
  apply Nat.ltb_lt in H1. apply Nat.leb_le in H2. lia.
Qed.

(** [_get_next_page_break] on a valid start index, with a previous page at
    hand when one is read: below the minimum page size it answers the
    document length at once; otherwise it sends one pagination prompt, whose
    passage ends with the label of the window end, and chooses the break
    from the reply. *)
Lemma _get_next_page_break_spec (paragraphs : list string) (start : nat)
    (st : GistAgent) (j wcount : nat) (passage : list string) :
  window paragraphs start = Some (j, wcount, passage) →
  previous_page_available st start →
  ∃ preceding end_tag,
    let prompt :=
      PROMPT_PAGINATION preceding
        (PyStr.join PyStr.nl (passage ++ [label j])) end_tag in
    _get_next_page_break endpoint paragraphs start st =
    if wcount <? min_page_words then (Ok (length paragraphs), st)
    else (Ok (choose_break start j (reply_text (endpoint (calls st) prompt))),
          (_run_llm endpoint prompt st).2).
Proof.
  intros Hwin Hprev.
  pose proof (window_spec _ _ _ _ _ Hwin) as (Hj & _ & _).
  unfold window in Hwin.
  destruct (paragraphs !! start) as [first|] eqn:Hfirst; [|done].
  simpl in Hwin. injection Hwin as Hacc.
  unfold _get_next_page_break, bind, get_self.
  assert (∃ preceding,
    (if start =? 0 then ret EmptyString
     else bind (getlast (pages st))
            (fun last_page => ret ("..." +:+ PyStr.nl +:+ PyStr.join PyStr.nl last_page)))
      st = (Ok preceding, st)) as [preceding Hpre].
  { destruct (start =? 0) eqn:H0; [by eexists|].
    apply Nat.eqb_neq in H0. destruct Hprev as [?|Hne]; [done|].
    unfold bind, getlast.
    destruct (last (pages st)) as [lp|] eqn:Hlast; [by eexists|].
    by apply last_None in Hlast. }
  unfold bind in Hpre. rewrite Hpre.
  unfold getitem at 1. rewrite Hfirst. unfold ret at 1.
  rewrite Hacc.
  assert (∃ end_tag,
    (if j =? length paragraphs then ret EmptyString
     else bind (getitem paragraphs j)
            (fun next => ret (next +:+ PyStr.nl +:+ "...")))
      st = (Ok end_tag, st)) as [end_tag Hend].
  { destruct (j =? length paragraphs) eqn:Hjl; [by eexists|].
    apply Nat.eqb_neq in Hjl. unfold bind, getitem.
    destruct (lookup_lt_is_Some_2 paragraphs j) as [next ->]; [lia|].
    by eexists. }
  unfold bind in Hend. rewrite Hend.
  exists preceding, end_tag. simpl.
  destruct (wcount <? min_page_words); [done|].
  destruct (_run_llm_spec
              (PROMPT_PAGINATION preceding
                 (PyStr.join PyStr.nl (passage ++ [label j])) end_tag) st)
    as (st' & -> & _).
  done.
Qed.

Lemma _get_next_page_break_Ok_inv (paragraphs : list string) (start : nat)
    (st st' : GistAgent) (b : nat) :
  _get_next_page_break endpoint paragraphs start st = (Ok b, st') →
  is_Some (window paragraphs start) ∧ previous_page_available st start.
Proof.
  unfold _get_next_page_break, bind, get_self, window, previous_page_available.
  simpl. intros Hrun. split.
  - destruct (start =? 0); [|unfold getlast in Hrun; destruct (last (pages st))];
      simpl in Hrun; try done;
      unfold getitem in Hrun at 1; destruct (paragraphs !! start);
      simpl in *; by eauto.
  - destruct (start =? 0) eqn:H0; [left; by apply Nat.eqb_eq|right].
    unfold getlast in Hrun. intros Hnil. by rewrite Hnil in Hrun.
Qed.



Lemma total_words_take_le (n : nat) (l : list string) :
  total_words (take n l) ≤ total_words l.
Proof.
  rewrite <- (take_drop n l) at 2. rewrite total_words_app. lia.
Qed.

(** C4 (as the code has it). On a start index inside the document, with a
    previous page at hand when the start index is not 0: if the paragraphs
    from the start index to the end of the document hold fewer than 350
    words, [_get_next_page_break] returns the document length and leaves the
    agent as it was, so nothing is sent to the endpoint; the page cut at
    that break is the whole remainder of the document. *)
Theorem short_tail_is_final_page (paragraphs : list string) (start : nat)
    (st : GistAgent) :
  start < length paragraphs →
  previous_page_available st start →
  total_words (drop start paragraphs) < 350 →
  _get_next_page_break endpoint paragraphs start st
  = (Ok (length paragraphs), st) ∧
  slice paragraphs start (length paragraphs) = drop start paragraphs.
Proof.
  intros Hlt Hprev Hwords. split.
  - destruct (window_is_Some _ _ Hlt) as [[[j wcount] passage] Hwin].
    destruct (_get_next_page_break_spec _ _ _ _ _ _ Hwin Hprev)
      as (preceding & end_tag & Hspec).
    simpl in Hspec. rewrite Hspec.
    apply window_spec in Hwin as (_ & Hw & _).
    unfold slice in Hw.
    pose proof (total_words_take_le (j - start) (drop start paragraphs)).
    assert ((wcount <? min_page_words) = true) as ->; [|done].
    apply Nat.ltb_lt. unfold min_page_words. lia.
  - unfold slice. apply take_ge. rewrite length_drop. lia.
Qed.

(** [_create_summary] never raises and adds no page and no summary itself. *)
Lemma _create_summary_spec (page : list string) (st : GistAgent) :
  ∃ summary st',
    _create_summary endpoint page st = (Ok summary, st') ∧
    same_store st st' ∧
    calls st' = calls st ++ [PROMPT_SHORTEN (PyStr.join PyStr.nl page)].
Proof.
  unfold _create_summary, bind, same_store.
  destruct (_run_llm_spec (PROMPT_SHORTEN (PyStr.join PyStr.nl page)) st)
    as (st' & -> & Hc & Hp & Hs & Ht).
  destruct (reply_text _) as [text|]; [destruct (PyStr.truthy _)|];
    by eexists _, _.
Qed.

(** On a valid start index, with a previous page at hand when one is read,
    [_get_next_page_break] returns a break after the start index and inside
    the document, whatever the endpoint does. *)
Lemma _get_next_page_break_progress (paragraphs : list string) (start : nat)
    (st : GistAgent) :
  start < length paragraphs →
  previous_page_available st start →
  ∃ b st',
    _get_next_page_break endpoint paragraphs start st = (Ok b, st') ∧
    start < b ≤ length paragraphs ∧
    same_store st st'.
Proof.
  intros Hlt Hprev.
  destruct (window_is_Some _ _ Hlt) as [[[j wcount] passage] Hwin].
  destruct (_get_next_page_break_spec _ _ _ _ _ _ Hwin Hprev)
    as (preceding & end_tag & Hspec).
  simpl in Hspec. rewrite Hspec.
  apply window_spec in Hwin as (Hj & _).
  destruct (wcount <? min_page_words).
  - eexists _, _. split; [done|]. split; [lia|done].
  - destruct (_run_llm_spec
                (PROMPT_PAGINATION preceding
                   (PyStr.join PyStr.nl (passage ++ [label j])) end_tag) st)
      as (st' & -> & _ & Hp & Hs & Ht).
    eexists _, _. split; [done|].
    pose proof (choose_break_bounds start j
                  (reply_text (endpoint (calls st)
                     (PROMPT_PAGINATION preceding
                        (PyStr.join PyStr.nl (passage ++ [label j])) end_tag)))).
    split; [lia|done].
Qed.

(** One iteration of the processing loop appends exactly one page, the
    slice from the old to the new pause point, and exactly one summary. *)
Lemma loop_body_spec (paragraphs : list string) (start : nat) (st : GistAgent) :
  start < length paragraphs →
  previous_page_available st start →
  ∃ b summary st',
    loop_body endpoint paragraphs start st = (Ok b, st') ∧
    start < b ≤ length paragraphs ∧
    title st' = title st ∧
    pages st' = pages st ++ [slice paragraphs start b] ∧
    shortened_pages st' = shortened_pages st ++ [summary].
Proof.
  intros Hlt Hprev.
  destruct (_get_next_page_break_progress _ _ _ Hlt Hprev)
    as (b & st1 & Hbreak & Hb & Ht1 & Hp1 & Hs1).
  unfold loop_body, bind, modify. rewrite Hbreak.
  destruct (_create_summary_spec (slice paragraphs start b)
              (pages_append (slice paragraphs start b) st1))
    as (summary & st2 & -> & (Ht2 & Hp2 & Hs2) & _).
  exists b, summary. eexists. split; [done|]. split; [done|].
  simpl in *. rewrite Ht2, Hp2, Hs2, Ht1, Hp1, Hs1. done.
Qed.

(** The loop finishes within [length paragraphs - pause_point] iterations
    and the pages it appends tile the rest of the document. *)
Lemma process_loop_spec (paragraphs : list string) (fuel : nat) :
  ∀ pause_point st,
    pause_point ≤ length paragraphs →
    previous_page_available st pause_point →
    length paragraphs - pause_point ≤ fuel →
    ∃ st' bounds,
      process_loop endpoint fuel paragraphs pause_point st = Some (Ok tt, st') ∧
      tiles pause_point bounds (length paragraphs) ∧
      length bounds ≤ length paragraphs - pause_point ∧
      title st' = title st ∧
      pages st' = pages st ++ (page_of_bounds paragraphs <$> bounds) ∧
      length (shortened_pages st') = length (shortened_pages st) + length bounds.
Proof.
  induction fuel as [|fuel IH]; intros pause_point st Hle Hprev Hfuel.
  - assert (pause_point = length paragraphs) as -> by lia.
    simpl. rewrite Nat.ltb_irrefl.
    exists st, []. simpl. rewrite app_nil_r. repeat split; lia.
  - simpl. destruct (pause_point <? length paragraphs) eqn:Hcond.
    + apply Nat.ltb_lt in Hcond.
      destruct (loop_body_spec _ _ _ Hcond Hprev)
        as (b & summary & st1 & -> & Hb & Ht & Hp & Hs).
      destruct (IH b st1) as (st' & bounds & Hrun & Htiles & Hlen & Ht' & Hp' & Hs').
      { lia. }
      { right. rewrite Hp. by destruct (pages st). }
      { lia. }
      exists st', ((pause_point, b) :: bounds).
      split; [done|]. split; [simpl; split; [done|split; [lia|done]]|].
      split; [simpl; lia|]. split; [congruence|].
      split.
      * rewrite Hp', Hp. simpl. by rewrite <- app_assoc.
      * rewrite Hs', Hs, length_app. simpl. lia.
    + apply Nat.ltb_ge in Hcond.
      assert (pause_point = length paragraphs) as -> by lia.
      exists st, []. simpl. rewrite app_nil_r. repeat split; lia.
Qed.



(** *** Tilings *)







Lemma slice_nil {A} (l : list A) (a : nat) : slice l a a = [].
Proof. unfold slice. by rewrite Nat.sub_diag. Qed.







End Paginator.


(** The last paragraph of the sample document holds 50 words. *)
Lemma short_tail_is_final_page_witness :
  let st := pages_append (take 3 sample_document) new_agent in
  _get_next_page_break sample_endpoint sample_document 3 st = (Ok 4, st) ∧
  slice sample_document 3 4 = drop 3 sample_document.
Proof.
  intros st.
  apply (short_tail_is_final_page sample_endpoint sample_document 3 st).
  - vm_compute. lia.
  - right. discriminate.
  - vm_compute. lia.
Defined.

(** C4 as stated fails in two ways. On an agent without pages and a start
    index other than 0 the previous page is read before anything else; and
    on a start index at the end of the document, here the empty document,
    there is no first paragraph to read. Both calls raise [IndexError]
    although fewer than 350 words remain. *)
Lemma short_tail_without_previous_page :
  (total_words (drop 1 ["a"; "b"]) < 350 ∧
   _get_next_page_break failing_endpoint ["a"; "b"] 1 new_agent
   = (Raise IndexError, new_agent) ∧
   _get_next_page_break failing_endpoint ["a"; "b"] 1 new_agent
   ≠ (Ok (length ["a"; "b"]), new_agent)) ∧
  (total_words (drop 0 []) < 350 ∧
   _get_next_page_break failing_endpoint [] 0 new_agent
   = (Raise IndexError, new_agent) ∧
   _get_next_page_break failing_endpoint [] 0 new_agent
   ≠ (Ok (length (@nil string)), new_agent)).
Proof.
  split; (split; [vm_compute; lia|]); (split; [reflexivity|discriminate]).
Qed.



(** ** Recall controller and page store *)

Section Recall.

Variable endpoint : list Prompt -> Prompt -> Reply.

(** Every page id kept by the validation loop is below the page count. *)
Lemma collect_page_ids_valid (n_pages : nat) (page_ids_str : list (list ascii)) :
  ∀ k, k ∈ (collect_page_ids n_pages page_ids_str).1 → k < n_pages.
Proof.
  induction page_ids_str as [|p rest IH]; simpl; intros k Hk.
  - by apply elem_of_nil in Hk.
  - destruct (collect_page_ids n_pages rest) as [page_ids printed].
    destruct (PyStr.isnumeric _); [|by apply IH].
    destruct (_ <? n_pages) eqn:Hlt; [|by apply IH].
    simpl in Hk. apply elem_of_cons in Hk as [->|Hk]; [|by apply IH].
    by apply Nat.ltb_lt.
Qed.

Lemma parse_page_ids_valid (text : string) (n_pages : nat) :
  ∀ k, k ∈ (parse_page_ids text n_pages).1 → k < n_pages.
Proof.
  unfold parse_page_ids. destruct (Parse.search_bracket_list _).
  - apply collect_page_ids_valid.
  - intros k Hk. by apply elem_of_nil in Hk.
Qed.

(** The expansion loop with every index in range: it does not raise, keeps
    the length of the context, and replaces exactly the summaries of the
    listed pages by their full text. *)
Lemma expand_spec (all_pages : list (list string)) (st : GistAgent)
    (page_ids : list nat) :
  ∀ expanded,
    (∀ k, k ∈ page_ids → k < length all_pages ∧ k < length expanded) →
    ∃ result,
      expand all_pages page_ids expanded st = (Ok result, st) ∧
      length result = length expanded ∧
      ∀ k, result !! k =
           if bool_decide (k ∈ page_ids)
           then (fun _ => PyStr.join PyStr.nl (default [] (all_pages !! k)))
                  <$> expanded !! k
           else expanded !! k.
Proof.
  induction page_ids as [|page_id rest IH]; intros expanded Hvalid; cbn [expand].
  - exists expanded. split; [done|]. split; [done|]. intros k.
    rewrite bool_decide_eq_false_2; [done|]. apply not_elem_of_nil.
  - destruct (Hvalid page_id) as [Hp He]; [left|].
    unfold bind, getitem, setitem.
    destruct (lookup_lt_is_Some_2 all_pages page_id Hp) as [page Hpage].
    rewrite Hpage. simpl. apply Nat.ltb_lt in He as Heb. rewrite Heb. simpl.
    destruct (IH (<[page_id:=PyStr.join PyStr.nl page]> expanded))
      as (result & Hrun & Hlen & Hlook).
    { intros k Hk. rewrite length_insert. apply Hvalid. by right. }
    exists result. split; [done|]. rewrite length_insert in Hlen.
    split; [done|]. intros k. rewrite Hlook.
    destruct (decide (k = page_id)) as [->|Hne].
    + rewrite list_lookup_insert_eq by done.
      rewrite (bool_decide_eq_true_2 (page_id ∈ page_id :: rest)) by left.
      destruct (lookup_lt_is_Some_2 expanded page_id He) as [gist ->].
      rewrite Hpage. simpl. by destruct (bool_decide _).
    + rewrite list_lookup_insert_ne by done.
      assert (bool_decide (k ∈ page_id :: rest) = bool_decide (k ∈ rest)) as ->; [|done].
      apply bool_decide_ext. rewrite elem_of_cons. intuition congruence.
Qed.

(** On an aligned page store the expansion loop over validated page ids
    yields the expanded context. *)
Lemma expand_aligned (st : GistAgent) (page_ids : list nat) :
  aligned st →
  (∀ k, k ∈ page_ids → k < length (pages st)) →
  expand (pages st) page_ids (shortened_pages st) st
  = (Ok (expanded_context st page_ids), st).
Proof.
  intros Hal Hvalid.
  destruct (expand_spec (pages st) st page_ids (shortened_pages st))
    as (result & -> & Hlen & Hlook).
  { intros k Hk. split; [by apply Hvalid|]. rewrite <- Hal. by apply Hvalid. }
  do 2 f_equal. apply list_eq. intros k.
  rewrite Hlook. unfold expanded_context. rewrite list_lookup_imap.
  destruct (shortened_pages st !! k); simpl; by destruct (bool_decide _).
Qed.

(** [answer] on a processed, aligned agent whose lookup call returns text:
    it never raises, it sends the lookup prompt and then the final prompt
    built from the expanded context, and it touches neither pages nor
    summaries. *)
Lemma answer_spec (question : string) (st : GistAgent) (text : string) :
  aligned st →
  pages st ≠ [] →
  let lookup :=
    PROMPT_LOOKUP
      (PyStr.join PyStr.nl (imap page_header (shortened_pages st))) question in
  reply_text (endpoint (calls st) lookup) = Some text →
  text ≠ EmptyString →
  let page_ids := (parse_page_ids text (length (pages st))).1 in
  let printed := (parse_page_ids text (length (pages st))).2 in
  let final_prompt :=
    PROMPT_FREE_ANSWER
      (PyStr.join PyStr.nl (expanded_context st page_ids)) question in
  let final_answer := reply_text (endpoint (calls st ++ [lookup]) final_prompt) in
  ∃ st',
    answer endpoint question st
    = (Ok (if PyStr.truthy final_answer
           then FinalAnswer printed (chosen_pages_of page_ids)
                  (PyStr.strip (default EmptyString final_answer))
           else AnswerFailed printed (chosen_pages_of page_ids)), st') ∧
    calls st' = calls st ++ [lookup; final_prompt] ∧
    same_store st st'.
Proof.
  intros Hal Hne lookup Htext Hnonempty. cbv zeta.
  unfold answer, bind, get_self.
  destruct (pages st) as [|pg pgs] eqn:Hpages; [done|].
  rewrite <- Hpages in *. fold lookup.
  destruct (_run_llm_spec endpoint lookup st) as (st1 & -> & Hc1 & Hp1 & Hs1 & Ht1).
  rewrite Htext. destruct text as [|c r]; [done|].
  destruct (parse_page_ids (String c r) (length (pages st))) as [ids pr] eqn:Hparse.
  cbn [fst snd].
  assert (expand (pages st) ids (shortened_pages st) st1
          = (Ok (expanded_context st ids), st1)) as Hexp.
  { pose proof (expand_aligned st1 ids) as Hexp.
    unfold expanded_context in *. rewrite Hp1, Hs1 in Hexp. apply Hexp.
    - unfold aligned. by rewrite Hp1, Hs1.
    - intros k Hk. apply (parse_page_ids_valid (String c r)).
      by rewrite Hparse. }
  rewrite Hexp.
  set (final_prompt := PROMPT_FREE_ANSWER _ question).
  destruct (_run_llm_spec endpoint final_prompt st1) as (st2 & -> & Hc2 & Hp2 & Hs2 & Ht2).
  rewrite Hc1.
  exists st2. split; [by destruct (PyStr.truthy _)|].
  split; [by rewrite Hc2, Hc1, <- app_assoc|].
  unfold same_store. by rewrite Ht2, Hp2, Hs2, Ht1, Hp1, Hs1.
Qed.

Lemma same_store_refl (st : GistAgent) : same_store st st.
Proof. done. Qed.

(** Whether it returns or raises, [_get_next_page_break] leaves title, pages
    and summaries as they are. *)
Lemma _get_next_page_break_same_store (paragraphs : list string) (start : nat)
    (st st' : GistAgent) (r : Result nat) :
  _get_next_page_break endpoint paragraphs start st = (r, st') →
  same_store st st'.
Proof.
  unfold _get_next_page_break, bind, get_self, getlast, getitem, ret, raise.
  intros Hrun.
  repeat (case_match; simplify_eq; try apply same_store_refl).
  all: match goal with
       | H : _run_llm endpoint ?p ?s = _ |- _ =>
           destruct (_run_llm_spec endpoint p s) as (? & Hspec & _ & ? & ? & ?);
           rewrite Hspec in H; simplify_eq; done
       end.
Qed.

(** One iteration of the processing loop keeps the page store aligned,
    whether it completes or raises. *)
Lemma loop_body_aligned (paragraphs : list string) (start : nat)
    (st st' : GistAgent) (r : Result nat) :
  aligned st →
  loop_body endpoint paragraphs start st = (r, st') →
  aligned st'.
Proof.
  unfold aligned, loop_body, bind, modify. intros Hal Hrun.
  destruct (_get_next_page_break endpoint paragraphs start st) as [[b|e] st1] eqn:Hbreak;
    apply _get_next_page_break_same_store in Hbreak as (_ & Hp1 & Hs1).
  - destruct (_create_summary_spec endpoint (slice paragraphs start b)
                (pages_append (slice paragraphs start b) st1))
      as (summary & st2 & Hsum & (_ & Hp2 & Hs2) & _).
    rewrite Hsum in Hrun. injection Hrun as <- <-. simpl in *.
    rewrite Hp2, Hs2, !length_app, Hp1, Hs1. simpl. lia.
  - injection Hrun as <- <-. by rewrite Hp1, Hs1.
Qed.

Lemma process_loop_aligned (paragraphs : list string) (fuel : nat) :
  ∀ pause_point st r st',
    aligned st →
    process_loop endpoint fuel paragraphs pause_point st = Some (r, st') →
    aligned st'.
Proof.
  induction fuel as [|fuel IH]; intros pause_point st r st' Hal Hrun; simpl in Hrun;
    destruct (pause_point <? length paragraphs); try done.
  - by injection Hrun as <- <-.
  - destruct (loop_body endpoint paragraphs pause_point st) as [[b|e] st1] eqn:Hbody;
      apply loop_body_aligned in Hbody; [|done|idtac|done].
    + by eapply IH.
    + by injection Hrun as <- <-.
  - by injection Hrun as <- <-.
Qed.

(** [answer] on an aligned agent never raises and touches neither pages
    nor summaries. *)
Lemma answer_total (question : string) (st : GistAgent) :
  aligned st →
  ∃ outcome st',
    answer endpoint question st = (Ok outcome, st') ∧ same_store st st'.
Proof.
  intros Hal.
  destruct (pages st) as [|pg pgs] eqn:Hpages.
  { exists NotProcessedError, st. unfold answer, bind, get_self.
    by rewrite Hpages. }
  set (lookup := PROMPT_LOOKUP
         (PyStr.join PyStr.nl (imap page_header (shortened_pages st))) question).
  destruct (reply_text (endpoint (calls st) lookup)) as [[|c r]|] eqn:Htext.
  1, 3: exists LookupFailed; unfold answer, bind, get_self; rewrite Hpages;
        fold lookup;
        destruct (_run_llm_spec endpoint lookup st) as (st1 & -> & _ & ? & ? & ?);
        rewrite Htext; by exists st1.
  destruct (answer_spec question st (String c r)) as (st' & Hrun & _ & Hsame);
    [done|by rewrite Hpages|done|done|].
  by eexists _, st'.
Qed.

Lemma expanded_context_lookup (st : GistAgent) (page_ids : list nat) (k : nat) :
  aligned st →
  expanded_context st page_ids !! k =
  if bool_decide (k ∈ page_ids)
  then PyStr.join PyStr.nl <$> pages st !! k
  else shortened_pages st !! k.
Proof.
  intros Hal. unfold expanded_context. rewrite list_lookup_imap.
  destruct (bool_decide (k ∈ page_ids)); [|by destruct (shortened_pages st !! k)].
  destruct (decide (k < length (pages st))) as [Hlt|Hge].
  - destruct (lookup_lt_is_Some_2 (pages st) k Hlt) as [pg ->].
    rewrite Hal in Hlt.
    by destruct (lookup_lt_is_Some_2 (shortened_pages st) k Hlt) as [gist ->].
  - rewrite (lookup_ge_None_2 (pages st)) by lia.
    rewrite (lookup_ge_None_2 (shortened_pages st)); [done|]. rewrite <- Hal. lia.
Qed.


Section Source.

Variable fetch : string -> Result HtmlPage.

(** C9. When no title can be extracted from the fetched page,
    [process_document] returns before its loop: pages, summaries, metrics
    and the prompts sent are what they were before the call, whatever the
    iteration budget. *)
Theorem missing_title_aborts (fuel : nat) (url : string) (st : GistAgent)
    (html_page : HtmlPage) :
  fetch url = Ok html_page →
  PyStr.truthy (get_title_from_html html_page) = false →
  ∃ st',
    process_document endpoint fetch fuel url st = Some (Ok tt, st') ∧
    title st' = get_title_from_html html_page ∧
    pages st' = pages st ∧
    shortened_pages st' = shortened_pages st ∧
    calls st' = calls st ∧
    llm_metrics st' = llm_metrics st.
Proof.
  intros Hfetch Htitle. unfold process_document. rewrite Hfetch. simpl.
  rewrite Htitle. simpl. by eexists.
Qed.

(** C10. The page store holds one summary per page: this is so for a new
    agent; every completed iteration of the processing loop appends exactly
    one page and exactly one summary; an iteration, and [process_document]
    as a whole, keep the two lists equally long however they end; and on
    such a store [answer] never indexes out of range: it returns without
    raising. *)
Theorem pages_and_summaries_aligned :
  aligned new_agent ∧
  (∀ paragraphs start st b st',
     loop_body endpoint paragraphs start st = (Ok b, st') →
     ∃ summary,
       pages st' = pages st ++ [slice paragraphs start b] ∧
       shortened_pages st' = shortened_pages st ++ [summary]) ∧
  (∀ paragraphs start st r st',
     aligned st →
     loop_body endpoint paragraphs start st = (r, st') →
     aligned st') ∧
  (∀ fuel url st r st',
     aligned st →
     process_document endpoint fetch fuel url st = Some (r, st') →
     aligned st') ∧
  (∀ question st,
     aligned st →
     ∃ outcome st',
       answer endpoint question st = (Ok outcome, st') ∧
       pages st' = pages st ∧ shortened_pages st' = shortened_pages st).
Proof.
  split; [done|]. split; [|split; [|split]].
  - intros paragraphs start st b st' Hrun.
    assert (start < length paragraphs ∧ previous_page_available st start)
      as [Hlt Hprev].
    { unfold loop_body, bind in Hrun.
      destruct (_get_next_page_break endpoint paragraphs start st)
        as [[b1|e] st1] eqn:Hbreak; [|done].
      apply _get_next_page_break_Ok_inv in Hbreak as [[[[j w] passage] Hwin] Hprev].
      apply window_spec in Hwin. split; [lia|done]. }
    destruct (loop_body_spec endpoint _ _ _ Hlt Hprev)
      as (b' & summary & st'' & Hrun' & _ & _ & Hp & Hs).
    rewrite Hrun' in Hrun. injection Hrun as <- <-. by exists summary.
  - intros paragraphs start st r st'. apply loop_body_aligned.
  - intros fuel url st r st' Hal. unfold process_document.
    destruct (fetch url) as [html_page|e]; [|by intros [= <- <-]].
    destruct (negb _); [by intros [= <- <-]|].
    apply process_loop_aligned. done.
  - intros question st Hal.
    destruct (answer_total question st Hal) as (outcome & st' & Hrun & _ & Hp & Hs).
    by exists outcome, st'.
Qed.

End Source.

(** The validation loop looks at its tokens only after stripping them. *)
Lemma collect_page_ids_ext (n_pages : nat) (l1 : list (list ascii)) :
  ∀ l2,
    PyStr.strip_chars <$> l1 = PyStr.strip_chars <$> l2 →
    collect_page_ids n_pages l1 = collect_page_ids n_pages l2.
Proof.
  induction l1 as [|p1 l1 IH]; intros [|p2 l2] Heq; try done.
  rewrite !fmap_cons in Heq. injection Heq as Hp Hl.
  cbn [collect_page_ids]. by rewrite (IH l2 Hl), Hp.
Qed.

(** C6. When the first bracketed list of the lookup response reads
    2, 2, 5, 99, whatever blanks surround its entries, and the store holds
    10 pages, the validation loop keeps the page ids 2, 2 and 5 and prints
    one diagnostic for 99; the pages reported as chosen are 2 and 5, the
    set of selected pages is {2, 5}; [answer] does not raise, and the
    context of its final prompt holds the full text of pages 2 and 5 and
    the summary of every other page. *)
Theorem lookup_selection_example (text : string) (group : list ascii) :
  Parse.search_bracket_list (list_ascii_of_string text) = Some group →
  PyStr.strip_chars <$> PyStr.split_on "," group
  = list_ascii_of_string <$> ["2"; "2"; "5"; "99"] →
  parse_page_ids text 10
  = ([2; 2; 5], ["  - (Model requested invalid page index: 99)"]) ∧
  chosen_pages_of [2; 2; 5] = Some [2; 5] ∧
  (list_to_set [2; 2; 5] : gset nat) = {[2; 5]} ∧
  ∀ question st,
    length (pages st) = 10 →
    aligned st →
    let lookup :=
      PROMPT_LOOKUP
        (PyStr.join PyStr.nl (imap page_header (shortened_pages st))) question in
    reply_text (endpoint (calls st) lookup) = Some text →
    ∃ outcome st' expanded,
      answer endpoint question st = (Ok outcome, st') ∧
      calls st' = calls st ++
        [lookup; PROMPT_FREE_ANSWER (PyStr.join PyStr.nl expanded) question] ∧
      (∀ k, expanded !! k =
            if bool_decide (k = 2 ∨ k = 5)
            then PyStr.join PyStr.nl <$> pages st !! k
            else shortened_pages st !! k) ∧
      ((∃ final_answer,
          outcome = FinalAnswer
                      ["  - (Model requested invalid page index: 99)"]
                      (Some [2; 5]) final_answer) ∨
       outcome = AnswerFailed
                   ["  - (Model requested invalid page index: 99)"]
                   (Some [2; 5])).
Proof.
  intros Hsearch Htokens.
  assert (parse_page_ids text 10
          = ([2; 2; 5], ["  - (Model requested invalid page index: 99)"]))
    as Hparse.
  { unfold parse_page_ids. rewrite Hsearch.
    rewrite (collect_page_ids_ext 10 _
               (list_ascii_of_string <$> ["2"; "2"; "5"; "99"])).
    - vm_compute. reflexivity.
    - rewrite Htokens. vm_compute. reflexivity. }
  split; [done|]. split; [vm_compute; reflexivity|]. split; [set_solver|].
  intros question st Hlen Hal lookup Htext.
  destruct (answer_spec question st text) as (st' & Hrun & Hcalls & _);
    [done|by destruct (pages st)|done|by intros ->|].
  rewrite Hlen, Hparse in Hrun, Hcalls. cbn [fst snd] in Hrun, Hcalls.
  eexists _, st', (expanded_context st [2; 2; 5]).
  split; [exact Hrun|]. split; [exact Hcalls|]. split.
  - intros k. rewrite expanded_context_lookup by done.
    assert (bool_decide (k ∈ [2; 2; 5]) = bool_decide (k = 2 ∨ k = 5)) as ->; [|done].
    apply bool_decide_ext. rewrite !elem_of_cons, elem_of_nil. tauto.
  - change (chosen_pages_of [2; 2; 5]) with (Some [2; 5]).
    destruct (PyStr.truthy _); [left; by eexists|by right].
Qed.

(** C7. With summaries S0, S1, S2, pages whose full texts are "P0 full",
    "P1 full", "P2 full", and the selection {1}, the expansion loop yields
    the context S0, "P1 full", S2 in page order, and [answer] sends it,
    joined by newlines, in its final prompt. *)
Theorem expansion_example (st : GistAgent) (page_ids : list nat) :
  shortened_pages st = ["S0"; "S1"; "S2"] →
  PyStr.join PyStr.nl <$> pages st = ["P0 full"; "P1 full"; "P2 full"] →
  (list_to_set page_ids : gset nat) = {[1]} →
  expand (pages st) page_ids (shortened_pages st) st
  = (Ok ["S0"; "P1 full"; "S2"], st) ∧
  ∀ question text,
    let lookup :=
      PROMPT_LOOKUP
        (PyStr.join PyStr.nl (imap page_header (shortened_pages st))) question in
    reply_text (endpoint (calls st) lookup) = Some text →
    (parse_page_ids text (length (pages st))).1 = page_ids →
    ∃ outcome st',
      answer endpoint question st = (Ok outcome, st') ∧
      calls st' = calls st ++
        [lookup;
         PROMPT_FREE_ANSWER
           ("S0" +:+ PyStr.nl +:+ "P1 full" +:+ PyStr.nl +:+ "S2") question].
Proof.
  intros Hs Hp Hsel.
  assert (aligned st) as Hal.
  { unfold aligned. rewrite Hs, <- (length_fmap (PyStr.join PyStr.nl)), Hp. done. }
  assert (∀ k, k ∈ page_ids ↔ k = 1) as Hmem.
  { intros k. rewrite <- (elem_of_list_to_set (C := gset nat)), Hsel.
    apply elem_of_singleton. }
  assert (expanded_context st page_ids = ["S0"; "P1 full"; "S2"]) as Hctx.
  { apply list_eq. intros k. rewrite expanded_context_lookup by done.
    rewrite <- list_lookup_fmap, Hp, Hs.
    destruct (decide (k = 1)) as [->|Hne].
    - by rewrite bool_decide_eq_true_2 by by apply Hmem.
    - rewrite bool_decide_eq_false_2 by by rewrite Hmem.
      by destruct k as [|[|[|k]]]. }
  split.
  - rewrite <- Hctx. apply expand_aligned; [done|].
    intros k ->%Hmem. rewrite <- (length_fmap (PyStr.join PyStr.nl)), Hp. simpl. lia.
  - intros question text lookup Htext Hids.
    assert (text ≠ EmptyString) as Hne.
    { intros ->. rewrite <- Hids in Hmem. specialize (Hmem 1).
      destruct Hmem as [_ Hmem]. specialize (Hmem eq_refl).
      by apply elem_of_nil in Hmem. }
    destruct (answer_spec question st text) as (st' & Hrun & Hcalls & _);
      [done| |done|done|].
    { intros Hnil. by rewrite Hnil in Hp. }
    rewrite Hids, Hctx in Hcalls.
    by eexists _, st'.
Qed.

End Recall.


(** A page without a title leaves a new agent without pages, even though
    it holds paragraphs. *)
Lemma missing_title_aborts_witness :
  ∃ st',
    process_document sample_endpoint untitled_fetch 0 "https://arxiv.org/abs/1" new_agent
    = Some (Ok tt, st') ∧
    title st' = None ∧
    pages st' = [] ∧
    shortened_pages st' = [] ∧
    calls st' = [] ∧
    llm_metrics st' = _get_initial_metrics.
Proof.
  apply (missing_title_aborts sample_endpoint untitled_fetch 0
           "https://arxiv.org/abs/1" new_agent (mkHtmlPage None sample_document));
    reflexivity.
Defined.

(** The sample endpoint asks for pages 2, 2, 5 and 99 of ten. *)
Lemma lookup_selection_example_witness :
  parse_page_ids "I want to look up Page [2, 2, 5, 99] to check." 10
  = ([2; 2; 5], ["  - (Model requested invalid page index: 99)"]) ∧
  ∃ outcome st' expanded,
    answer sample_endpoint "Q" ten_page_agent = (Ok outcome, st') ∧
    calls st' =
      [PROMPT_LOOKUP
         (PyStr.join PyStr.nl (imap page_header (shortened_pages ten_page_agent))) "Q";
       PROMPT_FREE_ANSWER (PyStr.join PyStr.nl expanded) "Q"] ∧
    (∀ k, expanded !! k =
          if bool_decide (k = 2 ∨ k = 5)
          then PyStr.join PyStr.nl <$> pages ten_page_agent !! k
          else shortened_pages ten_page_agent !! k) ∧
    ((∃ final_answer,
        outcome = FinalAnswer
                    ["  - (Model requested invalid page index: 99)"]
                    (Some [2; 5]) final_answer) ∨
     outcome = AnswerFailed
                 ["  - (Model requested invalid page index: 99)"]
                 (Some [2; 5])).
Proof.
  destruct (lookup_selection_example sample_endpoint
              "I want to look up Page [2, 2, 5, 99] to check."
              (list_ascii_of_string "2, 2, 5, 99"))
    as (Hparse & _ & _ & Hanswer).
  { vm_compute. reflexivity. }
  { vm_compute. reflexivity. }
  split; [exact Hparse|].
  apply (Hanswer "Q" ten_page_agent); vm_compute; reflexivity.
Defined.

(** The three-page agent with page 1 selected once. *)
Lemma expansion_example_witness :
  expand (pages three_page_agent) [1] (shortened_pages three_page_agent)
    three_page_agent
  = (Ok ["S0"; "P1 full"; "S2"], three_page_agent).
Proof.
  apply (expansion_example failing_endpoint three_page_agent [1]).
  - reflexivity.
  - reflexivity.
  - vm_compute. reflexivity.
Defined.

(** The three-page agent is aligned, and answering on it does not raise. *)
Lemma pages_and_summaries_aligned_witness :
  ∃ outcome st',
    answer sample_endpoint "Q" three_page_agent = (Ok outcome, st') ∧
    pages st' = pages three_page_agent ∧
    shortened_pages st' = shortened_pages three_page_agent.
Proof.
  destruct (pages_and_summaries_aligned sample_endpoint untitled_fetch)
    as (_ & _ & _ & _ & Hanswer).
  apply Hanswer. reflexivity.
Defined.

(** ** The embedding at work *)

(** The label of the pagination prompt's own example. *)
Example _parse_pause_point_example :
  _parse_pause_point "Break point: <57> Because the scene ends." = Some 57.
Proof. reflexivity. Qed.

(** With every endpoint call failing, the sample document is cut at the
    first window end, 3, and its 50-word tail becomes the last page. *)
Example process_loop_failing_endpoint :
  (fun r => (r.1, length <$> pages r.2, shortened_pages r.2, calls r.2))
    <$> process_loop failing_endpoint 4 sample_document 0 new_agent
  = Some (Ok tt, [3; 1],
          ["Failed to generate summary."; "Failed to generate summary."],
          [PROMPT_PAGINATION EmptyString
             (PyStr.join PyStr.nl
                [words 200; "<1>"; words 200; "<2>"; words 300; "<3>"])
             (words 50 +:+ PyStr.nl +:+ "...");
           PROMPT_SHORTEN (PyStr.join PyStr.nl (take 3 sample_document));
           PROMPT_SHORTEN (words 50)]).
Proof. vm_compute. reflexivity. Qed.

(** With the sample endpoint the break proposed for the first window, 2,
    is taken; the same proposal for the second window lies outside
    [(2, 4]] and the window end 4 is used. *)
Example process_loop_sample_endpoint :
  (fun r => (r.1, length <$> pages r.2, shortened_pages r.2))
    <$> process_loop sample_endpoint 4 sample_document 0 new_agent
  = Some (Ok tt, [2; 2], ["gist"; "gist"]).
Proof. vm_compute. reflexivity. Qed.

(** On a store with two pages and one summary, a validated request for
    page 1 indexes past the end of the summaries. *)
Example answer_misaligned_raises :
  let st := {| title := Some "T"; pages := [["a"]; ["b"]];
               shortened_pages := ["s"];
               llm_metrics := _get_initial_metrics; calls := [] |} in
  let endpoint := fun (_ : list Prompt) (_ : Prompt) =>
    Returned (mkResponse (Some "Page [1]") None None) 0 in
  (answer endpoint "Q" st).1 = Raise IndexError.
Proof. vm_compute. reflexivity. Qed.

(** * Further properties *)

(** ** Strings *)

Lemma chars_app (s1 s2 : string) :
  list_ascii_of_string (s1 +:+ s2)
  = list_ascii_of_string s1 ++ list_ascii_of_string s2.
Proof. induction s1 as [|c s1 IH]; simpl; [done|by rewrite IH]. Qed.

Lemma string_of_chars_app (l1 l2 : list ascii) :
  string_of_list_ascii (l1 ++ l2)
  = string_of_list_ascii l1 +:+ string_of_list_ascii l2.
Proof. induction l1 as [|c l1 IH]; simpl; [done|by rewrite IH]. Qed.

Lemma string_app_assoc (s1 s2 s3 : string) :
  (s1 +:+ s2) +:+ s3 = s1 +:+ s2 +:+ s3.
Proof.
  induction s1 as [|c s1 IH]; [done|].
  change (String c ((s1 +:+ s2) +:+ s3) = String c (s1 +:+ s2 +:+ s3)).
  by f_equal.
Qed.

Lemma string_app_nil_r (s : string) : s +:+ EmptyString = s.
Proof.
  induction s as [|c s IH]; [done|].
  change (String c (s +:+ EmptyString) = String c s). by f_equal.
Qed.

Lemma starts_with_app (p r : list ascii) : Parse.starts_with p (p ++ r) = true.
Proof.
  induction p as [|c p IH]; simpl; [done|].
  by rewrite Ascii.eqb_refl, IH.
Qed.

Lemma starts_with_inv (p s : list ascii) :
  Parse.starts_with p s = true → ∃ r, s = p ++ r.
Proof.
  revert s. induction p as [|c p IH]; intros s Hs; simpl in Hs.
  - by exists s.
  - destruct s as [|d s]; [done|].
    apply andb_prop in Hs as [Hc Hp]. apply Ascii.eqb_eq in Hc as ->.
    destruct (IH _ Hp) as [r ->]. by exists r.
Qed.

(** A run of characters of the class, followed by none of the class, is
    what [span] splits off. *)
Lemma span_run (p : ascii → bool) (run rest : list ascii) :
  forallb p run = true →
  match rest with [] => True | c :: _ => p c = false end →
  PyStr.span p (run ++ rest) = (run, rest).
Proof.
  intros Hrun Hrest. induction run as [|c run IH]; simpl in *.
  - destruct rest as [|c rest]; simpl; [done|]. by rewrite Hrest.
  - apply andb_prop in Hrun as [-> Hrun]. by rewrite (IH Hrun).
Qed.

(** ** The ar5iv adapter *)

Section Ar5iv.

Import ArxivParser.

Lemma search_paper_id_inv (s paper_id : list ascii) :
  search_paper_id s = Some paper_id →
  ∃ pre suf, s = pre ++ suf ∧ match_paper_id suf = Some paper_id.
Proof.
  induction s as [|c s IH]; simpl; [done|].
  destruct (match_paper_id (c :: s)) as [found|] eqn:Hm.
  - intros [= <-]. by exists [], (c :: s).
  - intros (pre & suf & -> & Hsuf)%IH. by exists (c :: pre), suf.
Qed.

Lemma match_paper_id_inv (s paper_id : list ascii) :
  match_paper_id s = Some paper_id →
  ∃ r, s = list_ascii_of_string "arxiv.org/" ++ r.
Proof.
  unfold match_paper_id.
  destruct (Parse.starts_with _ s || Parse.starts_with _ s) eqn:Hs; [|done].
  intros _. apply orb_prop in Hs as [Hs|Hs];
    apply starts_with_inv in Hs as [r ->]; by eexists.
Qed.

(** The link built for a paper id written in the class of the pattern. *)
Lemma get_ar5iv_link_of_id (kind : string) (paper_id rest : string) :
  kind = "pdf" ∨ kind = "abs" →
  paper_id ≠ EmptyString →
  forallb in_id_class (list_ascii_of_string paper_id) = true →
  match list_ascii_of_string rest with
  | [] => True
  | c :: _ => in_id_class c = false
  end →
  get_ar5iv_link ("https://arxiv.org/" +:+ kind +:+ "/" +:+ paper_id +:+ rest)
  = Ok (ar5iv_prefix
        +:+ string_of_list_ascii (drop_pdf (list_ascii_of_string paper_id))).
Proof.
  intros Hkind Hne Hclass Hrest.
  pose proof (span_run in_id_class _ _ Hclass Hrest) as Hspan.
  unfold get_ar5iv_link. rewrite !chars_app.
  destruct Hkind as [-> | ->];
    cbn -[PyStr.span drop_pdf in_id_class];
    unfold match_paper_id;
    cbn -[PyStr.span drop_pdf in_id_class];
    rewrite drop_0, Hspan; by destruct paper_id.
Qed.

Lemma drop_pdf_suffix (l : list ascii) :
  drop_pdf (l ++ list_ascii_of_string ".pdf") = l.
Proof.
  unfold drop_pdf, endswith. rewrite rev_app_distr, starts_with_app.
  rewrite length_app. simpl length.
  replace (length l + 4 - 4) with (length l) by lia.
  by rewrite take_app_length.
Qed.

(** X1. A link [get_ar5iv_link] returns starts with the ar5iv address, and
    the function maps it to itself: converting twice is converting once. *)
Theorem get_ar5iv_link_idempotent (url link : string) :
  get_ar5iv_link url = Ok link →
  (∃ paper_id, link = ar5iv_prefix +:+ paper_id) ∧
  get_ar5iv_link link = Ok link.
Proof.
  unfold get_ar5iv_link.
  destruct (Parse.starts_with _ (list_ascii_of_string url)) eqn:Hpre.
  - intros [= <-]. rewrite Hpre. split; [|done].
    apply starts_with_inv in Hpre as [r Hr].
    exists (string_of_list_ascii r).
    rewrite <- (string_of_list_ascii_of_string url), Hr, string_of_chars_app.
    by rewrite string_of_list_ascii_of_string.
  - destruct (search_paper_id _) as [paper_id|]; [|done].
    intros [= <-]. split; [by eexists|].
    by rewrite chars_app, starts_with_app.
Qed.

Lemma get_ar5iv_link_idempotent_witness :
  (∃ paper_id,
     "https://ar5iv.labs.arxiv.org/html/1706.03762" = ar5iv_prefix +:+ paper_id) ∧
  get_ar5iv_link "https://ar5iv.labs.arxiv.org/html/1706.03762"
  = Ok "https://ar5iv.labs.arxiv.org/html/1706.03762".
Proof.
  apply (get_ar5iv_link_idempotent "https://arxiv.org/pdf/1706.03762.pdf").
  reflexivity.
Defined.


(** X2. The abstract link, the PDF link and the PDF link with a [.pdf]
    ending of one paper id lead to the same ar5iv link, whatever follows the
    id outside the characters an id is made of (a query, a fragment). *)
Theorem get_ar5iv_link_pdf_abs (paper_id rest : string) :
  paper_id ≠ EmptyString →
  forallb in_id_class (list_ascii_of_string paper_id) = true →
  endswith (list_ascii_of_string paper_id) (list_ascii_of_string ".pdf") = false →
  match list_ascii_of_string rest with
  | [] => True
  | c :: _ => in_id_class c = false
  end →
  get_ar5iv_link ("https://arxiv.org/abs/" +:+ paper_id +:+ rest)
  = Ok (ar5iv_prefix +:+ paper_id) ∧
  get_ar5iv_link ("https://arxiv.org/pdf/" +:+ paper_id +:+ rest)
  = Ok (ar5iv_prefix +:+ paper_id) ∧
  get_ar5iv_link ("https://arxiv.org/pdf/" +:+ paper_id +:+ ".pdf" +:+ rest)
  = Ok (ar5iv_prefix +:+ paper_id).
Proof.
  intros Hne Hclass Hpdf Hrest.
  assert (drop_pdf (list_ascii_of_string paper_id) = list_ascii_of_string paper_id)
    as Hkeep by (unfold drop_pdf; by rewrite Hpdf).
  split; [|split].
  - etrans; [exact (get_ar5iv_link_of_id "abs" paper_id rest
                      (or_intror eq_refl) Hne Hclass Hrest)|].
    by rewrite Hkeep, string_of_list_ascii_of_string.
  - etrans; [exact (get_ar5iv_link_of_id "pdf" paper_id rest
                      (or_introl eq_refl) Hne Hclass Hrest)|].
    by rewrite Hkeep, string_of_list_ascii_of_string.
  - rewrite <- (string_app_assoc paper_id ".pdf" rest).
    etrans; [apply (get_ar5iv_link_of_id "pdf" (paper_id +:+ ".pdf") rest)|].
    + by left.
    + by destruct paper_id.
    + rewrite chars_app, forallb_app, Hclass. reflexivity.
    + done.
    + by rewrite chars_app, drop_pdf_suffix, string_of_list_ascii_of_string.
Qed.

Lemma get_ar5iv_link_pdf_abs_witness :
  get_ar5iv_link ("https://arxiv.org/abs/" +:+ "2402.09727v3" +:+ "?context=cs")
  = Ok (ar5iv_prefix +:+ "2402.09727v3") ∧
  get_ar5iv_link ("https://arxiv.org/pdf/" +:+ "2402.09727v3" +:+ "?context=cs")
  = Ok (ar5iv_prefix +:+ "2402.09727v3") ∧
  get_ar5iv_link
    ("https://arxiv.org/pdf/" +:+ "2402.09727v3" +:+ ".pdf" +:+ "?context=cs")
  = Ok (ar5iv_prefix +:+ "2402.09727v3").
Proof.
  apply (get_ar5iv_link_pdf_abs "2402.09727v3" "?context=cs");
    [discriminate|reflexivity..].
Defined.

(** X3. A link in which [arxiv.org/] does not occur is refused with a
    [ValueError]. *)
Theorem get_ar5iv_link_rejects (url : string) :
  (∀ pre post,
     list_ascii_of_string url
     ≠ pre ++ list_ascii_of_string "arxiv.org/" ++ post) →
  get_ar5iv_link url = Raise ValueError.
Proof.
  intros Hno. unfold get_ar5iv_link.
  destruct (Parse.starts_with _ (list_ascii_of_string url)) eqn:Hpre.
  { apply starts_with_inv in Hpre as [r Hr]. exfalso.
    apply (Hno (list_ascii_of_string "https://ar5iv.labs.")
               (list_ascii_of_string "html/" ++ r)).
    rewrite Hr. reflexivity. }
  destruct (search_paper_id _) as [paper_id|] eqn:Hsearch; [|done].
  apply search_paper_id_inv in Hsearch as (pre & suf & Hurl & Hm).
  apply match_paper_id_inv in Hm as [r ->].
  exfalso. by apply (Hno pre r).
Qed.

Lemma get_ar5iv_link_rejects_witness :
  get_ar5iv_link "https://example.org/pdf/1706.03762" = Raise ValueError.
Proof.
  apply get_ar5iv_link_rejects. intros pre post Heq. cbn in Heq.
  repeat (destruct pre as [|? pre];
          [discriminate Heq|first [discriminate Heq|injection Heq as _ Heq]]).
Defined.

(** *** The page cache *)



Lemma cache_key_no_separator (url : string) :
  "/"%char ∉ list_ascii_of_string (cache_key url).
Proof.
  unfold cache_key. rewrite chars_app, list_ascii_of_string_of_list_ascii.
  rewrite elem_of_app, list_elem_of_filter.
  intros [[Halnum _]|Hin]; [done|].
  simpl in Hin.
  repeat (apply elem_of_cons in Hin as [Hin|Hin]; [done|]).
  by apply elem_of_nil in Hin.
Qed.



(** X5. [get_html_page] never deletes or overwrites a file; a call that
    raises leaves the files as they were; and the only file a call can add
    lies directly in [html_cache]: its name holds no path separator. *)
Theorem get_html_page_files (http_get : string → Result string) (url : string)
    (files files' : gmap string string) (r : Result string) :
  get_html_page http_get url files = (r, files') →
  (∀ path text, files !! path = Some text → files' !! path = Some text) ∧
  (∀ e, r = Raise e → files' = files) ∧
  (files' = files ∨
   ∃ name html,
     ("/"%char ∉ list_ascii_of_string name) ∧
     r = Ok html ∧
     files !! ("html_cache/" +:+ name) = None ∧
     files' = (<["html_cache/" +:+ name := html]> files)).
Proof.
  unfold get_html_page.
  destruct (files !! cache_path url) as [cached|] eqn:Hlook.
  { intros [= <- <-]. split; [done|]. split; [done|by left]. }
  destruct (http_get url) as [fetched|e].
  - intros [= <- <-]. split; [|split; [done|]].
    + intros path text Hpath. rewrite lookup_insert_ne; [done|].
      intros <-. by rewrite Hlook in Hpath.
    + right. exists (cache_key url), fetched.
      split; [apply cache_key_no_separator|done].
  - intros [= <- <-]. split; [done|]. split; [done|by left].
Qed.

Lemma get_html_page_files_witness :
  let files : gmap string string := <["html_cache/other.html" := "x"]> ∅ in
  let files' := <[cache_path "u" := "<p/>"]> files in
  (∀ path text, files !! path = Some text → files' !! path = Some text) ∧
  (∀ e, Ok "<p/>" = Raise e → files' = files) ∧
  (files' = files ∨
   ∃ name html,
     ("/"%char ∉ list_ascii_of_string name) ∧
     Ok "<p/>" = Ok html ∧
     files !! ("html_cache/" +:+ name) = None ∧
     files' = (<["html_cache/" +:+ name := html]> files)).
Proof.
  intros files files'.
  apply (get_html_page_files (fun _ => Ok "<p/>") "u" files files' (Ok "<p/>")).
  vm_compute. reflexivity.
Defined.





End Ar5iv.

(** ** Metrics over a session *)

Lemma _update_llm_metrics_calls (response : Response) (delta_time : Q) (m : Metrics) :
  llm_calls (_update_llm_metrics response delta_time m).2 = (llm_calls m + 1)%Z.
Proof.
  unfold _update_llm_metrics.
  destruct (_ && _); [destruct (py_truediv _ _)|]; unfold add_call;
    by destruct (usage response).
Qed.

Lemma record_all_sums (rs : list (Response * Q)) :
  ∀ m,
    llm_calls (record_all rs m) = (llm_calls m + Z.of_nat (length rs))%Z ∧
    prompt_tokens (record_all rs m)
    = (prompt_tokens m + usage_sum u_prompt_tokens rs)%Z ∧
    response_tokens (record_all rs m)
    = (response_tokens m + usage_sum u_completion_tokens rs)%Z ∧
    total_tokens (record_all rs m)
    = (total_tokens m + usage_sum u_total_tokens rs)%Z ∧
    (completion_time (record_all rs m) == completion_time m + time_sum rs)%Q.
Proof.
  induction rs as [|[response delta] rs IH]; intros m; simpl.
  - repeat split; try lia. lra.
  - destruct (IH (_update_llm_metrics response delta m).2)
      as (Hc & Hp & Hr & Ht & Htime).
    unfold record_all in *. rewrite Hc, Hp, Hr, Ht, Htime.
    rewrite _update_llm_metrics_calls.
    destruct (_update_llm_metrics_tokens response delta m) as (-> & -> & -> & ->).
    unfold add_call, time_taken. simpl.
    destruct (usage response); simpl; repeat split; try lia; lra.
Qed.

(** X8. After any sequence of recorded responses the counters are sums:
    [llm_calls] is the number of responses, the three token counters are
    the sums of the reported counts over the responses that carry a usage
    block, and the completion time is the sum of the reported times, with
    the wall-clock time standing in where none is reported. *)
Theorem metrics_are_sums (rs : list (Response * Q)) :
  let m := record_all rs _get_initial_metrics in
  llm_calls m = Z.of_nat (length rs) ∧
  prompt_tokens m = usage_sum u_prompt_tokens rs ∧
  response_tokens m = usage_sum u_completion_tokens rs ∧
  total_tokens m = usage_sum u_total_tokens rs ∧
  (completion_time m == time_sum rs)%Q.
Proof.
  destruct (record_all_sums rs _get_initial_metrics) as (Hc & Hp & Hr & Ht & Htime).
  simpl in *. repeat split; try done. rewrite Htime. lra.
Qed.

Lemma Qpos_b_false (q : Q) : Qpos_b q = false ↔ (q <= 0)%Q.
Proof.
  destruct (Qpos_b q) eqn:Hq.
  - apply Qpos_b_spec in Hq. split; [done|]. intros Hle. lra.
  - split; [|done]. intros _.
    destruct (Qlt_le_dec 0 q) as [Hlt|Hle]; [|done].
    apply Qpos_b_spec in Hlt. congruence.
Qed.

Lemma _update_llm_metrics_average (response : Response) (delta_time : Q)
    (m : Metrics) :
  average_current m →
  (0 <= time_taken (response, delta_time))%Q →
  (∀ u, usage response = Some u → (0 ≤ u_completion_tokens u)%Z) →
  average_current (_update_llm_metrics response delta_time m).2.
Proof.
  intros (Hct & Hrt & Havg) Htime Husage.
  set (m1 := add_call response delta_time m).
  assert (completion_time m1 == completion_time m + time_taken (response, delta_time))%Q
    as Hct1 by (unfold m1, add_call, time_taken; by destruct (usage response)).
  assert (response_tokens m ≤ response_tokens m1)%Z as Hrt1.
  { unfold m1, add_call. destruct (usage response) as [u|] eqn:Hu; simpl; [|lia].
    specialize (Husage u eq_refl). lia. }
  assert (avg_tokens_per_second m1 = avg_tokens_per_second m) as Havg1
    by (unfold m1, add_call; by destruct (usage response)).
  unfold _update_llm_metrics. fold m1.
  destruct (Qpos_b (completion_time m1) && (0 <? response_tokens m1)%Z) eqn:Hguard.
  - apply andb_prop in Hguard as [Hpos Htok].
    apply Qpos_b_spec in Hpos as Hpos'.
    rewrite (py_truediv_pos _ _ Hpos'). unfold average_current. simpl.
    rewrite Hpos, Htok. simpl. split; [lra|]. split; [lia|done].
  - unfold average_current. simpl. rewrite Hguard.
    split; [lra|]. split; [lia|]. rewrite Havg1.
    destruct (Qpos_b (completion_time m) && (0 <? response_tokens m)%Z) eqn:Hold;
      [|done].
    apply andb_prop in Hold as [Hpos Htok].
    apply Qpos_b_spec in Hpos. apply Z.ltb_lt in Htok.
    apply andb_false_iff in Hguard as [Hg|Hg].
    + apply Qpos_b_false in Hg. lra.
    + apply Z.ltb_ge in Hg. lia.
Qed.

(** X9. When no recorded response reports a negative time or a negative
    completion-token count, the average is never stale: after any sequence
    of recorded responses it is the completion tokens divided by the
    completion time as soon as both are positive, and 0 until then. *)
Theorem average_never_stale (rs : list (Response * Q)) :
  (∀ rd, rd ∈ rs →
     (0 <= time_taken rd)%Q ∧
     ∀ u, usage rd.1 = Some u → (0 ≤ u_completion_tokens u)%Z) →
  let m := record_all rs _get_initial_metrics in
  if Qpos_b (completion_time m) && (0 <? response_tokens m)%Z
  then py_truediv (response_tokens m) (completion_time m)
       = Ok (avg_tokens_per_second m)
  else avg_tokens_per_second m = 0%Q.
Proof.
  intros Hrs m.
  assert (average_current m) as (_ & _ & Havg).
  { unfold m. clear m.
    assert (average_current _get_initial_metrics) as Hinit
      by (unfold average_current; simpl; repeat split; [lra|lia]).
    revert Hinit. generalize _get_initial_metrics as m.
    induction rs as [|[response delta] rs IH]; intros m Hm; [done|].
    simpl. apply IH.
    - intros rd Hrd. apply Hrs. by right.
    - destruct (Hrs (response, delta)) as [Ht Hu]; [by left|].
      by apply _update_llm_metrics_average. }
  destruct (Qpos_b (completion_time m) && (0 <? response_tokens m)%Z) eqn:Hguard;
    [|done].
  apply andb_prop in Hguard as [Hpos _]. apply Qpos_b_spec in Hpos.
  by rewrite py_truediv_pos, Havg.
Qed.

(** Three responses: one without usage, one without tokens, one with
    both. *)
Lemma average_never_stale_witness :
  let rs :=
    [(mkResponse (Some "a") None None, (1 # 2)%Q);
     (mkResponse (Some "b") (Some (1 # 4)%Q) (Some (mkUsage 10 0 10)), 5%Q);
     (mkResponse (Some "c") None (Some (mkUsage 20 15 35)), (1 # 4)%Q)] in
  let m := record_all rs _get_initial_metrics in
  if Qpos_b (completion_time m) && (0 <? response_tokens m)%Z
  then py_truediv (response_tokens m) (completion_time m)
       = Ok (avg_tokens_per_second m)
  else avg_tokens_per_second m = 0%Q.
Proof.
  intros rs.
  apply (average_never_stale rs).
  intros rd Hrd.
  repeat (apply elem_of_cons in Hrd as [->|Hrd];
          [split; [vm_compute; discriminate|intros u [= <-]; simpl; lia]|]);
    try (split; [vm_compute; discriminate|intros u Hu; discriminate Hu]).
  by apply elem_of_nil in Hrd.
Defined.

(** ** Streaming *)

Lemma consume_chunks_spec (chunks : list Chunk) :
  ∀ full_response final_chunk,
    consume_chunks chunks full_response final_chunk
    = (full_response +:+ stream_text chunks,
       match final_chunk_of chunks with
       | Some chunk => Some chunk
       | None => final_chunk
       end).
Proof.
  induction chunks as [|chunk chunks IH]; intros full final_chunk.
  - simpl. by rewrite string_app_nil_r.
  - cbn [consume_chunks stream_text foldr]. rewrite IH. f_equal.
    + destruct (delta_content chunk) as [[|c r]|]; simpl;
        by rewrite ?string_app_assoc.
    + unfold final_chunk_of. rewrite filter_cons.
      destruct (decide (finish_reason chunk = true)) as [Hfin|Hfin].
      * rewrite Hfin, last_cons.
        by destruct (last (filter _ chunks)).
      * apply not_true_is_false in Hfin. by rewrite Hfin.
Qed.

Section Streaming.

Variable stream_endpoint : list Prompt -> Prompt -> StreamReply.

(** X10. A stream that ends without an exception yields the contents of
    all its chunks, end to end, also when that is the empty string; the
    call is recorded in the metrics once, from the last chunk that carries
    a finish reason, and not at all when no chunk carries one. A stream
    that is interrupted yields nothing and leaves the metrics as they
    were. *)
Theorem stream_text_and_metrics (prompt : Prompt) (st : GistAgent)
    (chunks : list Chunk) (interrupted : bool) (delta_time : Q) :
  stream_endpoint (calls st) prompt = Streamed chunks interrupted delta_time →
  ∃ st',
    _run_llm_stream stream_endpoint prompt st
    = (Ok (if interrupted then None else Some (stream_text chunks)), st') ∧
    calls st' = calls st ++ [prompt] ∧
    same_store st st' ∧
    llm_metrics st' =
      match final_chunk_of chunks with
      | Some chunk =>
          if interrupted then llm_metrics st
          else (_update_llm_metrics (response_of_chunk chunk) delta_time
                  (llm_metrics st)).2
      | None => llm_metrics st
      end ∧
    llm_calls (llm_metrics st') =
      (llm_calls (llm_metrics st)
       + (if interrupted then 0
          else match final_chunk_of chunks with
               | Some _ => 1
               | None => 0
               end))%Z.
Proof.
  intros Hreply. unfold _run_llm_stream. rewrite Hreply.
  destruct interrupted.
  { eexists. split; [done|]. split; [done|]. split; [done|].
    split; [by destruct (final_chunk_of chunks)|simpl; lia]. }
  rewrite consume_chunks_spec. simpl.
  destruct (final_chunk_of chunks) as [chunk|].
  - pose proof (_update_llm_metrics_ok (response_of_chunk chunk) delta_time
                  (llm_metrics st)) as Hok.
    pose proof (_update_llm_metrics_calls (response_of_chunk chunk) delta_time
                  (llm_metrics st)) as Hcalls.
    destruct (_update_llm_metrics _ _ _) as [r m]. simpl in *. subst r.
    eexists. split; [done|]. split; [done|]. split; [done|]. by split.
  - eexists. split; [done|]. split; [done|]. split; [done|].
    split; [done|simpl; lia].
Qed.

Variable endpoint : list Prompt -> Prompt -> Reply.


End Streaming.

Lemma stream_text_and_metrics_witness :
  let chunks :=
    [mkChunk (Some "Break ") false None None;
     mkChunk None false None None;
     mkChunk (Some "point: <2>") true (Some (1 # 2)%Q) (Some (mkUsage 700 8 708))] in
  ∃ st',
    _run_llm_stream (fun _ _ => Streamed chunks false 1) (PROMPT_SHORTEN "p") new_agent
    = (Ok (Some "Break point: <2>"), st') ∧
    calls st' = [PROMPT_SHORTEN "p"] ∧
    llm_calls (llm_metrics st') = 1%Z.
Proof.
  intros chunks.
  destruct (stream_text_and_metrics (fun _ _ => Streamed chunks false 1)
              (PROMPT_SHORTEN "p") new_agent chunks false 1 eq_refl)
    as (st' & Hrun & Hcalls & _ & _ & Hcount).
  exists st'. split; [exact Hrun|]. split; [exact Hcalls|exact Hcount].
Defined.


(** ** Page sizes *)

Lemma accumulate_before_last (rest : list string) :
  ∀ j wcount passage j' wcount' passage',
    accumulate rest j wcount passage = (j', wcount', passage') →
    j < j' →
    wcount + total_words (take (j' - j - 1) rest) < word_limit.
Proof.
  induction rest as [|p rest IH]; intros j wcount passage j' wcount' passage' Hacc Hlt;
    simpl in Hacc.
  - injection Hacc as <- <- <-. lia.
  - destruct (wcount <? word_limit) eqn:Hlim.
    + apply Nat.ltb_lt in Hlim.
      pose proof (accumulate_spec _ _ _ _ _ _ _ Hacc) as (Hj & _ & _).
      destruct (decide (j' = S j)) as [->|Hne].
      * replace (S j - j - 1) with 0 by lia. unfold total_words. simpl. lia.
      * apply IH in Hacc; [|lia].
        replace (j' - j - 1) with (S (j' - S j - 1)) by lia.
        unfold total_words in *. simpl. lia.
    + injection Hacc as <- <- <-. lia.
Qed.

(** The paragraphs of a window before its last one stay below the word
    limit. *)
Lemma window_before_last (paragraphs : list string) (i j wcount : nat)
    (passage : list string) :
  window paragraphs i = Some (j, wcount, passage) →
  total_words (slice paragraphs i (j - 1)) < word_limit.
Proof.
  intros Hwin. pose proof (window_spec _ _ _ _ _ Hwin) as (Hj & _ & _).
  unfold window in Hwin.
  destruct (paragraphs !! i) as [first|] eqn:Hfirst; [|done].
  simpl in Hwin. injection Hwin as Hacc.
  destruct (decide (j = S i)) as [->|Hne].
  - replace (S i - 1) with i by lia. rewrite slice_nil.
    unfold total_words, word_limit. simpl. lia.
  - apply accumulate_before_last in Hacc; [|lia].
    unfold slice. rewrite (drop_S _ _ _ Hfirst).
    replace (j - 1 - i) with (S (j - S i - 1)) by lia.
    unfold total_words in *. simpl. lia.
Qed.

Lemma total_words_slice_mono (paragraphs : list string) (i b j : nat) :
  b ≤ j → total_words (slice paragraphs i b) ≤ total_words (slice paragraphs i j).
Proof.
  intros Hbj. unfold slice.
  replace (take (b - i) (drop i paragraphs))
    with (take (b - i) (take (j - i) (drop i paragraphs))).
  - apply total_words_take_le.
  - rewrite take_take. f_equal. lia.
Qed.

Section PageSizes.

Variable endpoint : list Prompt -> Prompt -> Reply.

Lemma _get_next_page_break_window (paragraphs : list string) (start : nat)
    (st st' : GistAgent) (b : nat) :
  _get_next_page_break endpoint paragraphs start st = (Ok b, st') →
  ∃ j wcount passage,
    window paragraphs start = Some (j, wcount, passage) ∧
    start < b ≤ j ∧ j ≤ length paragraphs ∧
    (PyStr.truthy
       (match drop (length (calls st)) (calls st') with
        | [prompt] => reply_text (endpoint (calls st) prompt)
        | _ => None
        end) = false → b = j).
Proof.
  intros Hrun.
  destruct (_get_next_page_break_Ok_inv _ _ _ _ _ _ Hrun)
    as [[[[j wcount] passage] Hwin] Hprev].
  destruct (_get_next_page_break_spec endpoint _ _ _ _ _ _ Hwin Hprev)
    as (preceding & end_tag & Hspec).
  simpl in Hspec. rewrite Hspec in Hrun.
  pose proof (window_spec _ _ _ _ _ Hwin) as (Hj & _ & Hend).
  exists j, wcount, passage. split; [done|].
  destruct (wcount <? min_page_words) eqn:Hmin.
  - injection Hrun as <- <-.
    apply Nat.ltb_lt in Hmin. unfold min_page_words, word_limit in *.
    rewrite Hend by lia. split; [lia|]. split; [lia|done].
  - set (prompt := PROMPT_PAGINATION preceding _ end_tag) in *.
    destruct (_run_llm_spec endpoint prompt st) as (st1 & Hllm & Hc & _).
    rewrite Hllm in Hrun. simpl in Hrun. injection Hrun as <- <-.
    pose proof (choose_break_bounds start j
                  (reply_text (endpoint (calls st) prompt))) as Hb.
    split; [lia|]. split; [lia|].
    rewrite Hc, drop_app_length. intros Hfalsy.
    unfold choose_break. by rewrite Hfalsy.
Qed.

(** X12. Every page the processing loop appends holds, before its last
    paragraph, fewer than 600 words: whatever the endpoint answers, a page
    exceeds the word limit by at most its last paragraph. *)
Theorem page_word_bound (paragraphs : list string) (start : nat)
    (st st' : GistAgent) (b : nat) :
  loop_body endpoint paragraphs start st = (Ok b, st') →
  ∃ page,
    pages st' = pages st ++ [page] ∧
    page = slice paragraphs start b ∧
    total_words (take (length page - 1) page) < 600.
Proof.
  intros Hrun.
  assert (∃ st1, _get_next_page_break endpoint paragraphs start st = (Ok b, st1))
    as [st1 Hbreak].
  { unfold loop_body, bind, modify in Hrun.
    destruct (_get_next_page_break endpoint paragraphs start st)
      as [[b1|e] st1]; [|done].
    destruct (_create_summary_spec endpoint (slice paragraphs start b1)
                (pages_append (slice paragraphs start b1) st1))
      as (summary & st2 & Hsum & _).
    rewrite Hsum in Hrun. injection Hrun as <- _. by exists st1. }
  destruct (_get_next_page_break_window _ _ _ _ _ Hbreak)
    as (j & wcount & passage & Hwin & Hb & Hj & _).
  destruct (loop_body_spec endpoint paragraphs start st)
    as (b' & summary & st'' & Hrun' & _ & _ & Hp & _).
  { lia. }
  { by eapply _get_next_page_break_Ok_inv. }
  rewrite Hrun' in Hrun. injection Hrun as -> ->.
  exists (slice paragraphs start b). split; [done|]. split; [done|].
  assert (take (length (slice paragraphs start b) - 1) (slice paragraphs start b)
          = slice paragraphs start (b - 1)) as ->.
  { unfold slice. rewrite length_take, length_drop, take_take. f_equal. lia. }
  pose proof (window_before_last _ _ _ _ _ Hwin).
  pose proof (total_words_slice_mono paragraphs start (b - 1) (j - 1)).
  unfold word_limit in *. lia.
Qed.


End PageSizes.

Lemma page_word_bound_witness :
  ∃ page,
    pages (loop_body sample_endpoint sample_document 0 new_agent).2 = [] ++ [page] ∧
    page = slice sample_document 0 2 ∧
    total_words (take (length page - 1) page) < 600.
Proof.
  apply (page_word_bound sample_endpoint sample_document 0 new_agent
           (loop_body sample_endpoint sample_document 0 new_agent).2 2).
  vm_compute. reflexivity.
Defined.


(** ** Labels *)

Lemma int_of_digits_uint (d : Decimal.uint) :
  ∀ acc,
    foldl (fun acc c => 10 * acc + PyStr.digit_value c) acc
      (list_ascii_of_string (NilEmpty.string_of_uint d))
    = Nat.of_uint_acc d acc.
Proof.
  induction d; intros acc; simpl; [done|..];
    rewrite IHd, Nat.tail_mul_spec; f_equal; unfold PyStr.digit_value; simpl; lia.
Qed.

Lemma digits_of_uint (d : Decimal.uint) :
  forallb PyStr.is_digit (list_ascii_of_string (NilEmpty.string_of_uint d)) = true.
Proof. induction d; simpl; done. Qed.

(** Reading the decimal numeral of a number gives the number back. *)
Lemma int_of_str_of_nat (n : nat) :
  PyStr.int_of_digits (list_ascii_of_string (PyStr.str_of_nat n)) = n.
Proof.
  unfold PyStr.int_of_digits, PyStr.str_of_nat.
  rewrite int_of_digits_uint. apply (DecimalNat.Unsigned.of_to n).
Qed.

Lemma str_of_nat_nonempty (n : nat) : PyStr.str_of_nat n ≠ EmptyString.
Proof.
  intros Hnil. pose proof (int_of_str_of_nat n) as Hn.
  rewrite Hnil in Hn. simpl in Hn. subst n. discriminate Hnil.
Qed.

Lemma search_label_skip (pre s : list ascii) :
  "<"%char ∉ pre → Parse.search_label (pre ++ s) = Parse.search_label s.
Proof.
  induction pre as [|c pre IH]; intros Hpre; [done|].
  apply not_elem_of_cons in Hpre as [Hc Hpre]. simpl.
  destruct (Ascii.eqb c "<") eqn:Heq; [apply Ascii.eqb_eq in Heq; congruence|].
  by apply IH.
Qed.

(** The label of a paragraph index is read back as that index, wherever it
    stands in a text that holds no [<] before it. *)
Lemma _parse_pause_point_label (pre post : string) (n : nat) :
  "<"%char ∉ list_ascii_of_string pre →
  _parse_pause_point (pre +:+ label n +:+ post) = Some n.
Proof.
  intros Hpre. unfold _parse_pause_point, label.
  rewrite !chars_app, search_label_skip by done.
  change (list_ascii_of_string "<") with ["<"%char].
  change (list_ascii_of_string ">") with [">"%char].
  cbn [app Parse.search_label]. rewrite Ascii.eqb_refl.
  rewrite <- app_assoc.
  rewrite (span_run PyStr.is_digit (list_ascii_of_string (PyStr.str_of_nat n))
             ([">"%char] ++ list_ascii_of_string post));
    [|apply digits_of_uint|done].
  pose proof (str_of_nat_nonempty n) as Hne.
  destruct (list_ascii_of_string (PyStr.str_of_nat n)) as [|d ds] eqn:Hdigits.
  { exfalso. apply Hne.
    by rewrite <- (string_of_list_ascii_of_string (PyStr.str_of_nat n)), Hdigits. }
  simpl. rewrite <- Hdigits. by rewrite int_of_str_of_nat.
Qed.

Section Labels.

Variable endpoint : list Prompt -> Prompt -> Reply.

(** X14. A label of the window is honoured: when the reply to the
    pagination prompt cites, as its first angle-bracket label, the label
    [<k>] of an index with [start < k <= j], in the very form the prompt
    writes labels, [_get_next_page_break] returns [k]. *)
Theorem offered_label_is_honoured (paragraphs : list string) (start : nat)
    (st : GistAgent) (j wcount : nat) (passage : list string)
    (pre post : string) (k : nat) :
  window paragraphs start = Some (j, wcount, passage) →
  previous_page_available st start →
  350 ≤ wcount →
  start < k ≤ j →
  "<"%char ∉ list_ascii_of_string pre →
  (∀ prompt,
     reply_text (endpoint (calls st) prompt) = Some (pre +:+ label k +:+ post)) →
  (_get_next_page_break endpoint paragraphs start st).1 = Ok k.
Proof.
  intros Hwin Hprev Hmin Hk Hpre Hreply.
  destruct (_get_next_page_break_spec endpoint _ _ _ _ _ _ Hwin Hprev)
    as (preceding & end_tag & Hspec).
  simpl in Hspec. rewrite Hspec.
  assert ((wcount <? min_page_words) = false) as ->
    by (apply Nat.ltb_ge; unfold min_page_words; lia).
  simpl. f_equal. rewrite Hreply. unfold choose_break.
  assert (PyStr.truthy (Some (pre +:+ label k +:+ post)) = true) as ->.
  { destruct pre; [|done]. unfold label. done. }
  simpl. rewrite _parse_pause_point_label by done.
  assert (k ≠ 0) as H0%Nat.eqb_neq by lia.
  destruct Hk as [H1%Nat.ltb_lt H2%Nat.leb_le].
  by rewrite H0, H1, H2.
Qed.

End Labels.

Lemma offered_label_is_honoured_witness :
  (_get_next_page_break
     (fun _ _ =>
        Returned (mkResponse (Some ("Break point: " +:+ label 1 +:+ " Because."))
                    None None) 0)
     sample_document 0 new_agent).1 = Ok 1.
Proof.
  destruct (window sample_document 0) as [[[j wcount] passage]|] eqn:Hwin;
    [|by vm_compute in Hwin].
  apply (offered_label_is_honoured _ sample_document 0 new_agent j wcount passage
           "Break point: " " Because." 1).
  - exact Hwin.
  - by left.
  - vm_compute in Hwin. injection Hwin as <- <- <-. lia.
  - vm_compute in Hwin. injection Hwin as <- <- <-. lia.
  - vm_compute. intros Hin.
    repeat (apply elem_of_cons in Hin as [Hin|Hin]; [discriminate Hin|]).
    by apply elem_of_nil in Hin.
  - reflexivity.
Defined.

(** ** What processing costs *)

Section Processing.

Variable endpoint : list Prompt -> Prompt -> Reply.

(** The agent [_run_llm] leaves behind: the prompt is recorded, and the
    metrics move exactly when the endpoint returned a response. *)
Lemma _run_llm_state (prompt : Prompt) (st : GistAgent) :
  _run_llm endpoint prompt st
  = (Ok (reply_text (endpoint (calls st) prompt)),
     set_llm_metrics
       match endpoint (calls st) prompt with
       | CallRaised => llm_metrics st
       | Returned response delta_time =>
           (_update_llm_metrics response delta_time (llm_metrics st)).2
       end
       (record_call prompt st)).
Proof.
  unfold _run_llm. destruct (endpoint (calls st) prompt) as [|response delta].
  - reflexivity.
  - simpl.
    pose proof (_update_llm_metrics_ok response delta (llm_metrics st)) as Hok.
    destruct (_update_llm_metrics response delta (llm_metrics st)) as [r m].
    simpl in *. subst r. reflexivity.
Qed.

(** [_get_next_page_break] changes the agent by at most one call of
    [_run_llm]. *)
Lemma _get_next_page_break_effects (paragraphs : list string) (start : nat)
    (st st' : GistAgent) (r : Result nat) :
  _get_next_page_break endpoint paragraphs start st = (r, st') →
  st' = st ∨ ∃ prompt, st' = (_run_llm endpoint prompt st).2.
Proof.
  unfold _get_next_page_break, bind, get_self, getlast, getitem, ret, raise.
  intros Hrun.
  repeat (case_match; simplify_eq; try (by left)).
  all: right; eexists;
    match goal with H : _run_llm endpoint ?p ?s = _ |- _ => by rewrite H end.
Qed.

(** [_create_summary] is one call of [_run_llm]; without text in the reply
    the summary is the failure sentence. *)
Lemma _create_summary_effects (page : list string) (st : GistAgent) :
  let prompt := PROMPT_SHORTEN (PyStr.join PyStr.nl page) in
  _create_summary endpoint page st
  = (Ok (summary_of_reply (reply_text (endpoint (calls st) prompt))),
     (_run_llm endpoint prompt st).2).
Proof.
  intros prompt. unfold _create_summary, bind. fold prompt.
  rewrite _run_llm_state. simpl.
  by destruct (reply_text (endpoint (calls st) prompt)) as [[|c r]|].
Qed.

(** An invariant of the iterations is an invariant of the loop. *)
Lemma process_loop_invariant (paragraphs : list string) (P : GistAgent → Prop) :
  (∀ pause_point st r st',
     P st →
     loop_body endpoint paragraphs pause_point st = (r, st') →
     P st') →
  ∀ fuel pause_point st r st',
    P st →
    process_loop endpoint fuel paragraphs pause_point st = Some (r, st') →
    P st'.
Proof.
  intros Hstep fuel.
  induction fuel as [|fuel IH]; intros pause_point st r st' HP Hrun; simpl in Hrun;
    destruct (pause_point <? length paragraphs); try done;
    try (by injection Hrun as <- <-).
  destruct (loop_body endpoint paragraphs pause_point st) as [[b|e] st1] eqn:Hbody.
  - eapply IH; [|done]. by eapply Hstep.
  - injection Hrun as <- <-. by eapply Hstep.
Qed.

(** One iteration, step by step: at most one call for the break, then, when
    a break is returned, the page, one call for its summary, and the
    summary. *)
Lemma loop_body_unfold (paragraphs : list string) (pause_point : nat)
    (st st' : GistAgent) (r : Result nat) :
  loop_body endpoint paragraphs pause_point st = (r, st') →
  ∃ st1,
    (st1 = st ∨ ∃ prompt, st1 = (_run_llm endpoint prompt st).2) ∧
    match r with
    | Ok b =>
        let page := slice paragraphs pause_point b in
        let st2 := pages_append page st1 in
        let prompt := PROMPT_SHORTEN (PyStr.join PyStr.nl page) in
        st' = shortened_pages_append
                (summary_of_reply (reply_text (endpoint (calls st2) prompt)))
                (_run_llm endpoint prompt st2).2
    | Raise _ => st' = st1
    end.
Proof.
  unfold loop_body, bind, modify. intros Hrun.
  destruct (_get_next_page_break endpoint paragraphs pause_point st)
    as [[b|e] st1] eqn:Hbreak; apply _get_next_page_break_effects in Hbreak.
  - rewrite _create_summary_effects in Hrun. injection Hrun as <- <-.
    by exists st1.
  - injection Hrun as <- <-. by exists st1.
Qed.




(** X16. When every call of the endpoint raises, processing still
    completes within [length paragraphs] iterations: every page gets the
    failure sentence as its summary, and the metrics do not move, failed
    calls not being counted. *)
Theorem failing_endpoint_processing (paragraphs : list string) (st : GistAgent) :
  (∀ history prompt, endpoint history prompt = CallRaised) →
  ∃ st' n,
    process_loop endpoint (length paragraphs) paragraphs 0 st = Some (Ok tt, st') ∧
    length (pages st') = length (pages st) + n ∧
    shortened_pages st'
    = shortened_pages st ++ replicate n "Failed to generate summary." ∧
    llm_metrics st' = llm_metrics st.
Proof.
  intros Hfail.
  destruct (process_loop_spec endpoint paragraphs (length paragraphs) 0 st)
    as (st' & bounds & Hrun & _ & _ & _ & Hp & Hs); [lia|by left|lia|].
  pose proof (process_loop_invariant paragraphs
    (fun st1 =>
       llm_metrics st1 = llm_metrics st ∧
       ∃ n, shortened_pages st1
            = shortened_pages st ++ replicate n "Failed to generate summary.")) as Hinv.
  destruct (Hinv) with (fuel := length paragraphs) (pause_point := 0) (st := st)
                       (r := Ok tt) (st' := st') as (Hm & n & Hsum);
    [|split; [done|exists 0; by rewrite app_nil_r]|done|].
  { clear Hinv Hrun Hp Hs. intros pause_point st0 r st1 (Hm & n & Hsum)
      (st2 & Hst2 & Hr)%loop_body_unfold.
    assert (llm_metrics st2 = llm_metrics st0
            ∧ shortened_pages st2 = shortened_pages st0) as [Hm2 Hs2].
    { destruct Hst2 as [->|[prompt ->]]; [done|].
      by rewrite _run_llm_state, Hfail. }
    destruct r as [b|e].
    - cbv zeta in Hr. rewrite _run_llm_state, !Hfail in Hr. subst st1. simpl.
      split; [congruence|]. exists (S n).
      rewrite Hs2, Hsum, <- app_assoc. f_equal.
      change ["Failed to generate summary."]
        with (replicate 1 "Failed to generate summary.").
      rewrite <- replicate_add. f_equal. lia.
    - subst st1. split; [congruence|]. exists n. congruence. }
  exists st', n. split; [done|]. split; [|done].
  rewrite Hsum, length_app, length_replicate in Hs.
  rewrite Hp, length_app, length_fmap. lia.
Qed.

End Processing.


Lemma failing_endpoint_processing_witness :
  ∃ st' n,
    process_loop failing_endpoint (length sample_document) sample_document 0 new_agent
    = Some (Ok tt, st') ∧
    length (pages st') = 0 + n ∧
    shortened_pages st' = [] ++ replicate n "Failed to generate summary." ∧
    llm_metrics st' = _get_initial_metrics.
Proof.
  apply (failing_endpoint_processing failing_endpoint sample_document new_agent).
  reflexivity.
Defined.

(** ** Summaries *)







(** ** More on recall *)

Section RecallMore.

Variable endpoint : list Prompt -> Prompt -> Reply.

(** The expansion loop reads and writes lists only: the agent is as
    before. *)
Lemma expand_state (all_pages : list (list string)) (page_ids : list nat) :
  ∀ expanded st r st',
    expand all_pages page_ids expanded st = (r, st') → st' = st.
Proof.
  induction page_ids as [|page_id rest IH]; intros expanded st r st' Hrun;
    cbn [expand] in Hrun.
  - by injection Hrun as _ <-.
  - unfold bind, getitem, setitem, ret, raise in Hrun.
    destruct (all_pages !! page_id); [|by injection Hrun as _ <-].
    destruct (page_id <? length expanded); [|by injection Hrun as _ <-].
    by eapply IH.
Qed.

Lemma expanded_context_nil (st : GistAgent) :
  expanded_context st [] = shortened_pages st.
Proof.
  apply list_eq. intros k. unfold expanded_context. rewrite list_lookup_imap.
  by destruct (shortened_pages st !! k).
Qed.

Lemma expanded_context_ext (st : GistAgent) (ids1 ids2 : list nat) :
  (∀ k, k ∈ ids1 ↔ k ∈ ids2) →
  expanded_context st ids1 = expanded_context st ids2.
Proof.
  intros Hsame. apply list_eq. intros k. unfold expanded_context.
  rewrite !list_lookup_imap.
  by rewrite (bool_decide_ext (k ∈ ids1) (k ∈ ids2)).
Qed.

(** X18. When validation keeps no page id, because the lookup response
    holds no bracketed list or only ids out of range, [answer] falls back
    to the summaries alone: the article of its final prompt is the
    summaries joined by newlines. *)
Theorem answer_without_selection (question : string) (st : GistAgent)
    (text : string) :
  aligned st →
  pages st ≠ [] →
  let lookup :=
    PROMPT_LOOKUP
      (PyStr.join PyStr.nl (imap page_header (shortened_pages st))) question in
  reply_text (endpoint (calls st) lookup) = Some text →
  text ≠ EmptyString →
  (parse_page_ids text (length (pages st))).1 = [] →
  ∃ outcome st',
    answer endpoint question st = (Ok outcome, st') ∧
    calls st' = calls st ++
      [lookup;
       PROMPT_FREE_ANSWER (PyStr.join PyStr.nl (shortened_pages st)) question].
Proof.
  intros Hal Hne lookup Htext Hnonempty Hids.
  destruct (answer_spec endpoint question st text Hal Hne Htext Hnonempty)
    as (st' & Hrun & Hcalls & _).
  rewrite Hids, expanded_context_nil in Hcalls.
  by eexists _, st'.
Qed.

(** X19. The expansion depends on the set of selected pages only: two
    lists of valid page ids with the same members, in whatever order and
    with whatever repetitions, expand to the same context. *)
Theorem expansion_depends_on_set (st : GistAgent) (ids1 ids2 : list nat) :
  aligned st →
  (∀ k, k ∈ ids1 → k < length (pages st)) →
  (∀ k, k ∈ ids1 ↔ k ∈ ids2) →
  expand (pages st) ids1 (shortened_pages st) st
  = expand (pages st) ids2 (shortened_pages st) st.
Proof.
  intros Hal Hvalid Hsame.
  rewrite !expand_aligned; [|done| |done|done].
  - by rewrite (expanded_context_ext st ids1 ids2).
  - intros k Hk. apply Hvalid. by apply Hsame.
Qed.

(** X20. [answer] sends at most two prompts and changes neither title nor
    pages nor summaries, however it ends; on a processed agent the first
    prompt is the lookup prompt, and when its reply carries no text the
    lookup prompt is the only one and [answer] reports the failed
    lookup. *)
Theorem answer_prompts (question : string) (st st' : GistAgent)
    (r : Result Outcome) :
  answer endpoint question st = (r, st') →
  let lookup :=
    PROMPT_LOOKUP
      (PyStr.join PyStr.nl (imap page_header (shortened_pages st))) question in
  same_store st st' ∧
  ∃ sent,
    calls st' = calls st ++ sent ∧
    length sent ≤ 2 ∧
    (pages st = [] → sent = []) ∧
    (pages st ≠ [] → ∃ rest, sent = lookup :: rest) ∧
    (pages st ≠ [] →
     PyStr.truthy (reply_text (endpoint (calls st) lookup)) = false →
     sent = [lookup] ∧ r = Ok LookupFailed).
Proof.
  intros Hrun lookup. unfold answer, bind, get_self in Hrun.
  destruct (pages st) as [|pg pgs] eqn:Hpages.
  { injection Hrun as <- <-. split; [done|]. exists [].
    rewrite app_nil_r. split; [done|]. split; [simpl; lia|].
    split; [done|]. split; congruence. }
  rewrite <- Hpages in *. fold lookup in Hrun.
  rewrite _run_llm_state in Hrun. simpl in Hrun.
  destruct (reply_text (endpoint (calls st) lookup)) as [[|c t]|] eqn:Htext.
  1, 3: injection Hrun as <- <-; split; [done|]; exists [lookup];
        split; [done|]; split; [simpl; lia|]; split; [by rewrite Hpages|];
        split; [by eexists|done].
  destruct (parse_page_ids _ _) as [page_ids printed].
  destruct (expand _ _ _ _) as [[expanded|e] st1] eqn:Hexp;
    apply expand_state in Hexp as ->.
  - rewrite _run_llm_state in Hrun. simpl in Hrun.
    assert (st' = set_llm_metrics (llm_metrics st') (record_call
              (PROMPT_FREE_ANSWER (PyStr.join PyStr.nl expanded) question)
              (set_llm_metrics (llm_metrics st') (record_call lookup st)))) as ->.
    { destruct (PyStr.truthy _); by injection Hrun as _ <-. }
    split; [done|]. eexists [lookup; _]. simpl.
    split; [by rewrite <- app_assoc|]. split; [lia|].
    split; [by rewrite Hpages|]. split; [by eexists|done].
  - injection Hrun as <- <-. split; [done|]. exists [lookup].
    split; [done|]. split; [simpl; lia|]. split; [by rewrite Hpages|].
    split; [by eexists|done].
Qed.


Section Source.

Variable fetch : string -> Result HtmlPage.

(** X21. A titled document without paragraphs leaves the agent
    unprocessed: [process_document] returns at once, with no page and no
    prompt sent, and on an agent that held no pages [answer] still reports
    that no document has been processed. *)
Theorem empty_document_stays_unprocessed (fuel : nat) (url : string)
    (st : GistAgent) (html_page : HtmlPage) :
  fetch url = Ok html_page →
  PyStr.truthy (get_title_from_html html_page) = true →
  get_paragraphs_from_html html_page = [] →
  ∃ st',
    process_document endpoint fetch fuel url st = Some (Ok tt, st') ∧
    title st' = get_title_from_html html_page ∧
    pages st' = pages st ∧
    calls st' = calls st ∧
    (pages st = [] →
     ∀ question, answer endpoint question st' = (Ok NotProcessedError, st')).
Proof.
  intros Hfetch Htitle Hpars. unfold process_document.
  rewrite Hfetch. simpl. rewrite Htitle, Hpars. simpl.
  destruct fuel; simpl; eexists; (split; [done|]); repeat split;
    intros Hnil question; unfold answer, bind, get_self; simpl; by rewrite Hnil.
Qed.


End Source.

End RecallMore.

Lemma answer_without_selection_witness :
  let endpoint := fun (_ : list Prompt) (_ : Prompt) =>
    Returned (mkResponse (Some "The summaries are enough.") None None) 0 in
  ∃ outcome st',
    answer endpoint "Q" three_page_agent = (Ok outcome, st') ∧
    calls st' = [] ++
      [PROMPT_LOOKUP
         (PyStr.join PyStr.nl (imap page_header (shortened_pages three_page_agent))) "Q";
       PROMPT_FREE_ANSWER (PyStr.join PyStr.nl ["S0"; "S1"; "S2"]) "Q"].
Proof.
  intros endpoint.
  apply (answer_without_selection endpoint "Q" three_page_agent
           "The summaries are enough."); try reflexivity; discriminate.
Defined.

Lemma expansion_depends_on_set_witness :
  expand (pages three_page_agent) [2; 0; 2] (shortened_pages three_page_agent)
    three_page_agent
  = expand (pages three_page_agent) [0; 2] (shortened_pages three_page_agent)
      three_page_agent.
Proof.
  apply (expansion_depends_on_set three_page_agent [2; 0; 2] [0; 2]).
  - reflexivity.
  - intros k Hk. rewrite !elem_of_cons, elem_of_nil in Hk. simpl. lia.
  - intros k. rewrite !elem_of_cons, !elem_of_nil. tauto.
Defined.

Lemma answer_prompts_witness :
  let run := answer failing_endpoint "Q" three_page_agent in
  let lookup :=
    PROMPT_LOOKUP
      (PyStr.join PyStr.nl (imap page_header (shortened_pages three_page_agent)))
      "Q" in
  same_store three_page_agent run.2 ∧
  ∃ sent,
    calls run.2 = calls three_page_agent ++ sent ∧
    length sent ≤ 2 ∧
    (pages three_page_agent = [] → sent = []) ∧
    (pages three_page_agent ≠ [] → ∃ rest, sent = lookup :: rest) ∧
    (pages three_page_agent ≠ [] →
     PyStr.truthy (reply_text (failing_endpoint (calls three_page_agent) lookup))
     = false →
     sent = [lookup] ∧ run.1 = Ok LookupFailed).
Proof.
  intros run lookup.
  apply (answer_prompts failing_endpoint "Q" three_page_agent run.2 run.1).
  apply surjective_pairing.
Defined.

Lemma empty_document_stays_unprocessed_witness :
  let fetch := fun _ : string => Ok (mkHtmlPage (Some "T") []) in
  ∃ st',
    process_document sample_endpoint fetch 0 "u" new_agent = Some (Ok tt, st') ∧
    title st' = Some "T" ∧
    pages st' = [] ∧
    calls st' = [] ∧
    (pages new_agent = [] →
     ∀ question, answer sample_endpoint question st' = (Ok NotProcessedError, st')).
Proof.
  intros fetch.
  apply (empty_document_stays_unprocessed sample_endpoint fetch 0 "u" new_agent
           (mkHtmlPage (Some "T") [])); reflexivity.
Defined.


(** ** Page lists *)


Lemma is_digit_not_comma (c : ascii) :
  PyStr.is_digit c = true → c ≠ ","%char.
Proof. by intros Hc ->. Qed.





Lemma join_cons_cons (sep x y : string) (l : list string) :
  PyStr.join sep (x :: y :: l) = x +:+ sep +:+ PyStr.join sep (y :: l).
Proof. done. Qed.








(** ** Titles *)

Lemma cons_word_proper (w : list ascii) (ws : list (list ascii)) :
  space_free w → proper_words ws → proper_words (PyText.cons_word w ws).
Proof. destruct w; [done|]. intros Hw Hws. by constructor. Qed.

Lemma words_of_proper (s : list ascii) :
  space_free (PyText.words_of s).1 ∧ proper_words (PyText.words_of s).2.
Proof.
  induction s as [|c s [IHw IHws]]; simpl; [by split; constructor|].
  destruct (PyText.words_of s) as [w ws]. simpl in *.
  destruct (PyStr.is_space c) eqn:Hc; simpl.
  - split; [constructor|by apply cons_word_proper].
  - split; [by constructor|done].
Qed.

Lemma split_chars_proper (s : list ascii) : proper_words (PyText.split_chars s).
Proof.
  unfold PyText.split_chars. pose proof (words_of_proper s) as [Hw Hws].
  destruct (PyText.words_of s) as [w ws]. by apply cons_word_proper.
Qed.

(** [len(s.split())], the word count of the paginator, is the length of
    [s.split()]. *)
Lemma length_split (s : string) :
  length (PyText.split s) = PyStr.word_count s.
Proof.
  unfold PyText.split, PyText.split_chars, PyStr.word_count.
  rewrite length_fmap.
  assert (PyStr.count_words true s
          = length (PyText.words_of (list_ascii_of_string s)).2
          ∧ PyStr.count_words false s
            = length (PyText.cons_word
                        (PyText.words_of (list_ascii_of_string s)).1
                        (PyText.words_of (list_ascii_of_string s)).2)) as [_ H].
  { induction s as [|c s [IHt IHf]]; simpl; [done|].
    destruct (PyText.words_of (list_ascii_of_string s)) as [w ws]. simpl in *.
    destruct (PyStr.is_space c); simpl; [by rewrite IHf|]. by rewrite IHt. }
  rewrite H. by destruct (PyText.words_of _).
Qed.

Lemma words_of_word_app (w rest : list ascii) :
  space_free w →
  PyText.words_of (w ++ rest)
  = (w ++ (PyText.words_of rest).1, (PyText.words_of rest).2).
Proof.
  induction 1 as [|c w Hc Hw IH]; simpl; [by destruct (PyText.words_of rest)|].
  by rewrite IH, Hc.
Qed.

(** Splitting words joined by single blanks gives the words back. *)
Lemma split_chars_join (ws : list (list ascii)) :
  proper_words ws →
  PyText.split_chars
    (list_ascii_of_string (PyStr.join " " (string_of_list_ascii <$> ws)))
  = ws.
Proof.
  induction 1 as [|w ws [Hne Hw] Hws IH]; [done|].
  destruct ws as [|w2 ws].
  - simpl. rewrite list_ascii_of_string_of_list_ascii.
    unfold PyText.split_chars.
    rewrite <- (app_nil_r w) at 1. rewrite (words_of_word_app w [] Hw). simpl.
    rewrite app_nil_r. by destruct w.
  - rewrite !fmap_cons, join_cons_cons, !chars_app,
      list_ascii_of_string_of_list_ascii.
    rewrite <- fmap_cons.
    unfold PyText.split_chars in *. rewrite (words_of_word_app w _ Hw).
    change (list_ascii_of_string " ") with [" "%char].
    cbn [app PyText.words_of]. change (PyStr.is_space " ") with true. cbn iota.
    destruct (PyText.words_of _) as [w0 ws0]. simpl. rewrite app_nil_r, IH.
    by destruct w.
Qed.

Lemma split_title (text : string) :
  PyText.split (title_of_text text) = PyText.split text.
Proof.
  unfold title_of_text, PyText.split.
  rewrite split_chars_join; [done|apply split_chars_proper].
Qed.

(** X24. The title made of a title element's text is its words joined by
    single blanks: making a title of a title changes nothing, the title has
    the words of the text, and it is empty exactly when the text holds no
    word. *)
Theorem title_of_text_normal (text : string) :
  title_of_text (title_of_text text) = title_of_text text ∧
  PyText.split (title_of_text text) = PyText.split text ∧
  (title_of_text text = EmptyString ↔ PyStr.word_count text = 0).
Proof.
  split; [|split].
  - unfold title_of_text at 1 3. by rewrite split_title.
  - apply split_title.
  - rewrite <- length_split. split.
    + intros Hnil. rewrite <- split_title, Hnil. done.
    + intros Hlen. unfold title_of_text.
      by destruct (PyText.split text).
Qed.

Section BlankTitle.

Variable endpoint : list Prompt -> Prompt -> Reply.
Variable fetch : string -> Result HtmlPage.

(** X25. A title element that holds nothing but white space counts as a
    missing title: [process_document] returns before its loop, with no
    page, no summary and no prompt sent. *)
Theorem blank_title_aborts (fuel : nat) (url : string) (st : GistAgent)
    (html_page : HtmlPage) (text : string) :
  fetch url = Ok html_page →
  get_title_from_html html_page = Some (title_of_text text) →
  PyStr.word_count text = 0 →
  ∃ st',
    process_document endpoint fetch fuel url st = Some (Ok tt, st') ∧
    pages st' = pages st ∧
    shortened_pages st' = shortened_pages st ∧
    calls st' = calls st.
Proof.
  intros Hfetch Htitle Hblank. unfold process_document. rewrite Hfetch. simpl.
  rewrite Htitle.
  assert (title_of_text text = EmptyString) as ->.
  { unfold title_of_text. rewrite <- length_split in Hblank.
    by destruct (PyText.split text). }
  simpl. by eexists.
Qed.

End BlankTitle.

Lemma blank_title_aborts_witness :
  let blank := String (ascii_of_nat 10) "   " in
  let fetch := fun _ : string =>
    Ok (mkHtmlPage (Some (title_of_text blank)) sample_document) in
  ∃ st',
    process_document sample_endpoint fetch 4 "u" new_agent = Some (Ok tt, st') ∧
    pages st' = [] ∧
    shortened_pages st' = [] ∧
    calls st' = [].
Proof.
  intros blank fetch.
  apply (blank_title_aborts sample_endpoint fetch 4 "u" new_agent
           (mkHtmlPage (Some (title_of_text blank)) sample_document) blank);
    reflexivity.
Defined.
